(** * eval-harness: scoring engine, regression detector and run aggregator

    A shallow embedding of the decision logic of the evaluation harness
    ([pkg/models/eval.py], [pkg/scoring/engine.py],
    [pkg/regression/detector.py]) together with the properties its
    specification states about it.

    Numbers.  The code computes with Python numbers: integers of any size
    and binary64 floats.  Two layers of arithmetic are used.

    - [Num]: exact rationals ([Qc], the canonical rationals, whose equality
      is Leibniz equality), with [round(x, n)] rounding to [n] decimals and
      ties going to the even neighbour.  The properties that compare,
      bound or relate scores (the rules of the detector, the summary of a
      run, ranges, symmetry, idempotence) are stated over it.
    - [Float64]: the interpreter's own arithmetic, binary64 with rounding
      to nearest even, integer true division with its [OverflowError],
      and [round] on the binary value of its argument.  The properties
      that fix the value of a score digit for digit are stated over it, on
      a second embedding of the engine ([Engine64]).

    Dictionaries.  An episode is a JSON object read with [dict.get]; it is
    represented by a record of optional fields (a field is [None] when the
    key is missing) plus the list of the keys the engine never reads, so
    that the truth value of the dictionary (non-emptiness) is preserved.
    The weight map is a [gmap] from names to weights where the order of
    the entries does not matter, and the list of its entries in insertion
    order where it does. *)

From Stdlib Require Import QArith Qcanon Qround ZArith Lia Lqa Ascii SpecFloat.
From stdpp Require Import base option list strings gmap numbers.

Local Open Scope Z_scope.
Local Open Scope Qc_scope.

(** ** Exceptions *)

Inductive exn : Set :=
| ZeroDivisionError
| TypeError
| IndexError
| AttributeError
| OverflowError.

Inductive result (A : Type) : Type :=
| Ok (a : A)
| Raise (e : exn).
Arguments Ok {A} a.
Arguments Raise {A} e.

Global Instance result_ret : MRet result := fun _ a => Ok a.
Global Instance result_bind : MBind result := fun _ _ k m =>
  match m with
  | Ok a => k a
  | Raise e => Raise e
  end.

(** ** Exact numbers *)

Module Num.

(** The decimal literal [n/d]. *)
Definition lit (n : Z) (d : positive) : Qc := Q2Qc (n # d).

Definition of_Z (n : Z) : Qc := Q2Qc (inject_Z n).
Definition of_nat (n : nat) : Qc := of_Z (Z.of_nat n).

Definition ltb (x y : Qc) : bool :=
  match x ?= y with Lt => true | _ => false end.
Definition gtb (x y : Qc) : bool := ltb y x.
Definition geb (x y : Qc) : bool := negb (ltb x y).
Definition eqb (x y : Qc) : bool :=
  match x ?= y with Eq => true | _ => false end.

(** [abs(x)] *)
Definition abs (x : Qc) : Qc := if ltb x 0 then - x else x.

(** [max(a, b)]: the first argument unless the second is strictly larger. *)
Definition max (a b : Qc) : Qc := if gtb b a then b else a.

(** [x / y] *)
Definition div (x y : Qc) : result Qc :=
  if eqb y 0 then Raise ZeroDivisionError else Ok (x / y).

Definition pow10 (n : nat) : Z := 10 ^ Z.of_nat n.

(** [round(x, n)]: the nearest multiple of [10^-n], ties to even. *)
Definition round (x : Qc) (n : nat) : Qc :=
  let y := x * of_Z (pow10 n) in
  let f := Qfloor y in
  let r := y - of_Z f in
  let m :=
    match r ?= lit 1 2 with
    | Lt => f
    | Gt => (f + 1)%Z
    | Eq => if Z.even f then f else (f + 1)%Z
    end in
  Q2Qc (m # Z.to_pos (pow10 n)).

End Num.

(** ** Episode records ([dict[str, Any]] as delivered by the episode store) *)

Record Step : Type := mkStep {
  step_index : option nat;
  step_type : option string;
  tool_name : option string
}.

Record Episode : Type := mkEpisode {
  ep_episode_id : option string;
  ep_agent_id : option string;
  ep_status : option string;
  ep_steps : option (list Step);
  ep_tools_used : option (list string);
  ep_total_cost_usd : option Qc;
  ep_total_duration_ms : option Qc;
  (** keys present in the dictionary that the engine never reads *)
  ep_other_keys : list string
}.

(** The dictionary [{}]. *)
Definition empty_episode : Episode :=
  mkEpisode None None None None None None None [].

(** [1] when the key is present in the dictionary, [0] otherwise. *)
Definition has_key {A} (o : option A) : nat :=
  match o with
  | Some _ => 1
  | None => 0
  end.

(** [len(d)] for the dictionary. *)
Definition dict_len (e : Episode) : nat :=
  has_key (ep_episode_id e) + has_key (ep_agent_id e) +
  has_key (ep_status e) + has_key (ep_steps e) +
  has_key (ep_tools_used e) + has_key (ep_total_cost_usd e) +
  has_key (ep_total_duration_ms e) + length (ep_other_keys e).

(** Truth value of an optional dictionary: [None] and [{}] are false. *)
Definition truthy (d : option Episode) : bool :=
  match d with
  | None => false
  | Some e => negb (Nat.eqb (dict_len e) 0)
  end.

(** ** Data model ([pkg/models/eval.py]) *)

Inductive EvalStatus : Set := PENDING | RUNNING | COMPLETED | FAILED.

Inductive ScoreDimension : Set :=
| CORRECTNESS
| COST_DELTA
| LATENCY_DELTA
| TOOL_MATCH
| SAFETY.

Inductive RegressionSeverity : Set := INFO | WARNING | CRITICAL.

(** The string value of each member of the [ScoreDimension] enumeration. *)
Definition dimension_name (d : ScoreDimension) : string :=
  match d with
  | CORRECTNESS => "correctness"
  | COST_DELTA => "cost_delta"
  | LATENCY_DELTA => "latency_delta"
  | TOOL_MATCH => "tool_match"
  | SAFETY => "safety"
  end.

Definition all_dimensions : list ScoreDimension :=
  [CORRECTNESS; COST_DELTA; LATENCY_DELTA; TOOL_MATCH; SAFETY].

Record EvalConfig : Type := mkEvalConfig {
  name : string;
  episode_store_url : string;
  cfg_agent_id : option string;
  baseline_tag : option string;
  model_filter : option string;
  provider_filter : option string;
  tool_filter : option string;
  max_episodes : Z;
  score_weights : gmap string Qc;
  cost_threshold_pct : Qc;
  latency_threshold_pct : Qc
}.

(** The weight map built by the default factory of [score_weights]. *)
Definition default_score_weights : gmap string Qc :=
  <["correctness" := Num.lit 4 10]>
  (<["cost_delta" := Num.lit 2 10]>
  (<["latency_delta" := Num.lit 1 10]>
  (<["tool_match" := Num.lit 2 10]>
  (<["safety" := Num.lit 1 10]> ∅)))).

(** [EvalConfig()] *)
Definition default_config : EvalConfig :=
  mkEvalConfig "default" "http://localhost:8100" None None None None None 100
    default_score_weights (Num.lit 20 1) (Num.lit 30 1).

Record ScoreCard : Type := mkScoreCard {
  sc_episode_id : string;
  sc_agent_id : string;
  baseline_episode_id : option string;
  correctness : Qc;
  cost_delta : Qc;
  latency_delta : Qc;
  tool_match : Qc;
  safety : Qc;
  weighted_score : Qc;
  details : list (string * string)
}.

(** [ScoreCard(episode_id=..., agent_id=..., baseline_episode_id=...)]: the
    remaining fields take their declared defaults. *)
Definition new_ScoreCard (eid aid : string) (bid : option string) : ScoreCard :=
  mkScoreCard eid aid bid 0 0 0 0 1 0 [].

Definition set_correctness (v : Qc) (c : ScoreCard) : ScoreCard :=
  mkScoreCard (sc_episode_id c) (sc_agent_id c) (baseline_episode_id c)
    v (cost_delta c) (latency_delta c) (tool_match c) (safety c)
    (weighted_score c) (details c).
Definition set_cost_delta (v : Qc) (c : ScoreCard) : ScoreCard :=
  mkScoreCard (sc_episode_id c) (sc_agent_id c) (baseline_episode_id c)
    (correctness c) v (latency_delta c) (tool_match c) (safety c)
    (weighted_score c) (details c).
Definition set_latency_delta (v : Qc) (c : ScoreCard) : ScoreCard :=
  mkScoreCard (sc_episode_id c) (sc_agent_id c) (baseline_episode_id c)
    (correctness c) (cost_delta c) v (tool_match c) (safety c)
    (weighted_score c) (details c).
Definition set_tool_match (v : Qc) (c : ScoreCard) : ScoreCard :=
  mkScoreCard (sc_episode_id c) (sc_agent_id c) (baseline_episode_id c)
    (correctness c) (cost_delta c) (latency_delta c) v (safety c)
    (weighted_score c) (details c).
Definition set_safety (v : Qc) (c : ScoreCard) : ScoreCard :=
  mkScoreCard (sc_episode_id c) (sc_agent_id c) (baseline_episode_id c)
    (correctness c) (cost_delta c) (latency_delta c) (tool_match c) v
    (weighted_score c) (details c).
Definition set_weighted_score (v : Qc) (c : ScoreCard) : ScoreCard :=
  mkScoreCard (sc_episode_id c) (sc_agent_id c) (baseline_episode_id c)
    (correctness c) (cost_delta c) (latency_delta c) (tool_match c) (safety c)
    v (details c).

(** The text of an alert is an f-string over the numbers of the rule that
    fired; it is kept as the template together with its arguments. *)
Inductive Message : Type :=
| MsgCost (delta threshold : Qc)
| MsgLatency (delta threshold : Qc)
| MsgCorrectness (v : Qc)
| MsgToolMatch (v : Qc)
| MsgSafety (v : Qc)
| MsgOverall (v : Qc).

(** [alert_id] is drawn by a default factory ([uuid4]); the supply of fresh
    identifiers is a counter threaded through the detector.  [created_at]
    is a wall-clock reading and is not represented. *)
Record RegressionAlert : Type := mkRegressionAlert {
  alert_id : nat;
  eval_run_id : string;
  ra_episode_id : string;
  dimension : ScoreDimension;
  severity : RegressionSeverity;
  message : Message;
  baseline_value : Qc;
  current_value : Qc;
  delta_pct : Qc
}.

Definition set_eval_run_id (v : string) (a : RegressionAlert) : RegressionAlert :=
  mkRegressionAlert (alert_id a) v (ra_episode_id a) (dimension a) (severity a)
    (message a) (baseline_value a) (current_value a) (delta_pct a).

Record EvalResult : Type := mkEvalResult {
  er_episode_id : string;
  er_agent_id : string;
  er_status : EvalStatus;
  score_card : option ScoreCard;
  alerts : list RegressionAlert;
  error : option string;
  duration_ms : Z
}.

Definition set_alerts (v : list RegressionAlert) (r : EvalResult) : EvalResult :=
  mkEvalResult (er_episode_id r) (er_agent_id r) (er_status r) (score_card r)
    v (error r) (duration_ms r).

(** [started_at], [ended_at] (clock readings) and the [metadata] bag play no
    part in the summary and are not represented. *)
Record EvalRun : Type := mkEvalRun {
  run_id : string;
  config : EvalConfig;
  run_status : EvalStatus;
  results : list EvalResult;
  run_alerts : list RegressionAlert;
  total_episodes : nat;
  passed : nat;
  failed : nat;
  avg_weighted_score : Qc
}.

(** What an attribute of a score card can hold, as far as multiplication by
    a weight is concerned. *)
Inductive PyValue : Type :=
| PyFloat (x : Qc)
| PyStr (s : string)
| PyNone
| PyObject.

(** [abs(v)] *)
Definition py_abs (v : PyValue) : result Qc :=
  match v with
  | PyFloat x => Ok (Num.abs x)
  | _ => Raise TypeError
  end.

(** [v * w] for a float [w] *)
Definition py_mul (v : PyValue) (w : Qc) : result Qc :=
  match v with
  | PyFloat x => Ok (x * w)
  | _ => Raise TypeError
  end.

(** A left-to-right loop whose body may raise. *)
Fixpoint foldlM {A B} (f : B -> A -> result B) (l : list A) (b : B) : result B :=
  match l with
  | [] => Ok b
  | a :: l' => b' ← f b a; foldlM f l' b'
  end.

Section ScoreCard_methods.

(** The attributes a [ScoreCard] instance inherits from pydantic's
    [BaseModel], whose definition is not part of this repository: the
    table gives the value of each inherited name. *)
Variable inherited_attr : string -> option PyValue.

(** [getattr(self, dim, default)] *)
Definition getattr (self : ScoreCard) (dim : string) (dflt : PyValue) : PyValue :=
  if String.eqb dim "episode_id" then PyStr (sc_episode_id self)
  else if String.eqb dim "agent_id" then PyStr (sc_agent_id self)
  else if String.eqb dim "baseline_episode_id" then
    match baseline_episode_id self with
    | Some s => PyStr s
    | None => PyNone
    end
  else if String.eqb dim "correctness" then PyFloat (correctness self)
  else if String.eqb dim "cost_delta" then PyFloat (cost_delta self)
  else if String.eqb dim "latency_delta" then PyFloat (latency_delta self)
  else if String.eqb dim "tool_match" then PyFloat (tool_match self)
  else if String.eqb dim "safety" then PyFloat (safety self)
  else if String.eqb dim "weighted_score" then PyFloat (weighted_score self)
  else if String.eqb dim "details" then PyObject
  else if String.eqb dim "compute_weighted" then PyObject
  else default dflt (inherited_attr dim).

(** [dim in ("cost_delta", "latency_delta")] *)
Definition is_delta (dim : string) : bool :=
  String.eqb dim "cost_delta" || String.eqb dim "latency_delta".

(** One iteration of the loop of [compute_weighted]. *)
Definition weighted_step (self : ScoreCard) (total : Qc) (item : string * Qc)
  : result Qc :=
  let '(dim, weight) := item in
  let value := getattr self dim (PyFloat 0) in
  value ←
    (if is_delta dim then
       a ← py_abs value;
       q ← Num.div a (Num.lit 100 1);
       mret (PyFloat (Num.max 0 (1 - q)))
     else mret value);
  term ← py_mul value weight;
  mret (total + term).

(** [ScoreCard.compute_weighted]: the new state of the card and the
    returned value. *)
Definition compute_weighted (self : ScoreCard) (weights : gmap string Qc)
  : result (ScoreCard * Qc) :=
  total ← foldlM (weighted_step self) (map_to_list weights) 0;
  let self' := set_weighted_score (Num.round total 4) self in
  mret (self', weighted_score self').

End ScoreCard_methods.

(** ** Scoring engine ([pkg/scoring/engine.py]) *)

(** [l[i]] *)
Definition py_index {A} (l : list A) (i : nat) : result A :=
  match l !! i with
  | Some x => Ok x
  | None => Raise IndexError
  end.

(** [str == str] on optional values ([None] equals only [None]). *)
Definition opt_str_eqb (a b : option string) : bool :=
  match a, b with
  | Some x, Some y => String.eqb x y
  | None, None => true
  | _, _ => false
  end.

Module ScoringEngine.

Definition _score_correctness (current baseline : Episode) : result Qc :=
  let current_status := default "" (ep_status current) in
  let baseline_status := default "" (ep_status baseline) in
  let score :=
    if String.eqb current_status baseline_status then Num.lit 1 1
    else if String.eqb current_status "success" then Num.lit 8 10
    else Num.lit 0 1 in
  let current_steps := length (default [] (ep_steps current)) in
  let baseline_steps := length (default [] (ep_steps baseline)) in
  score ←
    (if Nat.ltb 0 current_steps && Nat.ltb 0 baseline_steps then
       step_ratio ← Num.div (Num.of_nat (Nat.min current_steps baseline_steps))
                            (Num.of_nat (Nat.max current_steps baseline_steps));
       mret (score * Num.lit 7 10 + step_ratio * Num.lit 3 10)
     else mret score);
  mret (Num.round score 4).

Definition _score_cost_delta (current baseline : Episode) : result Qc :=
  let current_cost := default (Num.lit 0 1) (ep_total_cost_usd current) in
  let baseline_cost := default (Num.lit 0 1) (ep_total_cost_usd baseline) in
  if Num.eqb baseline_cost 0 then mret (Num.lit 0 1)
  else
    q ← Num.div (current_cost - baseline_cost) baseline_cost;
    let delta_pct := q * Num.lit 100 1 in
    mret (Num.round delta_pct 2).

Definition _score_latency_delta (current baseline : Episode) : result Qc :=
  let current_ms := default (Num.lit 0 1) (ep_total_duration_ms current) in
  let baseline_ms := default (Num.lit 0 1) (ep_total_duration_ms baseline) in
  if Num.eqb baseline_ms 0 then mret (Num.lit 0 1)
  else
    q ← Num.div (current_ms - baseline_ms) baseline_ms;
    let delta_pct := q * Num.lit 100 1 in
    mret (Num.round delta_pct 2).

(** [sum(1 for i in range(min_len) if current_tools[i] == baseline_tools[i])] *)
Definition count_matches (current_tools baseline_tools : list string)
    (min_len : nat) : result nat :=
  foldlM (fun acc i =>
            c ← py_index current_tools i;
            b ← py_index baseline_tools i;
            mret (if String.eqb c b then acc + 1 else acc)%nat)
         (seq 0 min_len) 0%nat.

Definition _score_tool_match (current baseline : Episode) : result Qc :=
  let current_tools := default [] (ep_tools_used current) in
  let baseline_tools := default [] (ep_tools_used baseline) in
  if bool_decide (baseline_tools = []) && bool_decide (current_tools = [])
  then mret (Num.lit 1 1)
  else if bool_decide (baseline_tools = []) || bool_decide (current_tools = [])
  then mret (Num.lit 0 1)
  else
    let current_set : gset string := list_to_set current_tools in
    let baseline_set : gset string := list_to_set baseline_tools in
    let overlap := size (current_set ∩ baseline_set) in
    let union := size (current_set ∪ baseline_set) in
    set_score ←
      (if Nat.ltb 0 union then Num.div (Num.of_nat overlap) (Num.of_nat union)
       else mret (Num.lit 1 1));
    let order_score := Num.lit 0 1 in
    let min_len := Nat.min (length current_tools) (length baseline_tools) in
    order_score ←
      (if Nat.ltb 0 min_len then
         matches ← count_matches current_tools baseline_tools min_len;
         Num.div (Num.of_nat matches) (Num.of_nat min_len)
       else mret order_score);
    mret (Num.round (set_score * Num.lit 6 10 + order_score * Num.lit 4 10) 4).

Definition is_error_step (s : Step) : bool :=
  opt_str_eqb (step_type s) (Some "error").

Definition _score_safety (episode : Episode) : result Qc :=
  let steps := default [] (ep_steps episode) in
  if bool_decide (steps = []) then mret (Num.lit 1 1)
  else
    let error_steps := filter (fun s => is_error_step s = true) steps in
    error_ratio ← Num.div (Num.of_nat (length error_steps))
                          (Num.of_nat (length steps));
    mret (Num.round (Num.lit 1 1 - error_ratio) 4).

Section score.

Variable inherited_attr : string -> option PyValue.
Variable config : EvalConfig.

Definition score (original : Episode) (baseline : option Episode)
  : result ScoreCard :=
  let compare :=
    match baseline with
    | Some b => if truthy baseline then b else original
    | None => original
    end in
  let card :=
    new_ScoreCard
      (default "" (ep_episode_id original))
      (default "" (ep_agent_id original))
      (if truthy baseline then ep_episode_id compare else None) in
  v ← _score_correctness original compare;
  let card := set_correctness v card in
  v ← _score_cost_delta original compare;
  let card := set_cost_delta v card in
  v ← _score_latency_delta original compare;
  let card := set_latency_delta v card in
  v ← _score_tool_match original compare;
  let card := set_tool_match v card in
  v ← _score_safety original;
  let card := set_safety v card in
  r ← compute_weighted inherited_attr card (score_weights config);
  mret (fst r).

End score.

End ScoringEngine.

(** ** Regression detector ([pkg/regression/detector.py]) *)

Module RegressionDetector.

(** The local list [alerts] together with the supply of alert ids. *)
Definition DetState : Type := list RegressionAlert * nat.

(** [alerts.append(RegressionAlert(...))]: the constructor draws a fresh
    [alert_id]. *)
Definition append_alert (mk : nat -> RegressionAlert) (st : DetState) : DetState :=
  (fst st ++ [mk (snd st)], S (snd st)).

Section check.

Variable config : EvalConfig.

Definition check (result : EvalResult) (uuid : nat) : DetState :=
  match score_card result with
  | None => ([], uuid)
  | Some card =>
    let st : DetState := ([], uuid) in
    (* Cost regression *)
    let st :=
      if Num.gtb (cost_delta card) (cost_threshold_pct config) then
        let severity :=
          if Num.gtb (cost_delta card) (cost_threshold_pct config * Num.lit 2 1)
          then CRITICAL else WARNING in
        append_alert (fun id =>
          mkRegressionAlert id "" (sc_episode_id card) COST_DELTA severity
            (MsgCost (cost_delta card) (cost_threshold_pct config))
            (Num.lit 0 1) (cost_delta card) (cost_delta card)) st
      else st in
    (* Latency regression *)
    let st :=
      if Num.gtb (latency_delta card) (latency_threshold_pct config) then
        let severity :=
          if Num.gtb (latency_delta card)
                     (latency_threshold_pct config * Num.lit 2 1)
          then CRITICAL else WARNING in
        append_alert (fun id =>
          mkRegressionAlert id "" (sc_episode_id card) LATENCY_DELTA severity
            (MsgLatency (latency_delta card) (latency_threshold_pct config))
            (Num.lit 0 1) (latency_delta card) (latency_delta card)) st
      else st in
    (* Correctness regression *)
    let st :=
      if Num.ltb (correctness card) (Num.lit 5 10) then
        append_alert (fun id =>
          mkRegressionAlert id "" (sc_episode_id card) CORRECTNESS CRITICAL
            (MsgCorrectness (correctness card))
            (Num.lit 0 1) (correctness card) (Num.lit 0 1)) st
      else st in
    (* Tool match regression *)
    let st :=
      if Num.ltb (tool_match card) (Num.lit 5 10) then
        append_alert (fun id =>
          mkRegressionAlert id "" (sc_episode_id card) TOOL_MATCH WARNING
            (MsgToolMatch (tool_match card))
            (Num.lit 0 1) (tool_match card) (Num.lit 0 1)) st
      else st in
    (* Safety regression *)
    let st :=
      if Num.ltb (safety card) (Num.lit 8 10) then
        append_alert (fun id =>
          mkRegressionAlert id "" (sc_episode_id card) SAFETY CRITICAL
            (MsgSafety (safety card))
            (Num.lit 0 1) (safety card) (Num.lit 0 1)) st
      else st in
    (* Overall weighted score regression *)
    let st :=
      if Num.ltb (weighted_score card) (Num.lit 5 10) then
        append_alert (fun id =>
          mkRegressionAlert id "" (sc_episode_id card) CORRECTNESS CRITICAL
            (MsgOverall (weighted_score card))
            (Num.lit 0 1) (weighted_score card) (Num.lit 0 1)) st
      else st in
    st
  end.

(** The state of [check_batch]: the list [results], whose elements are
    updated in place, the accumulator [all_alerts] and the id supply. *)
Record BatchState : Type := mkBatchState {
  bs_results : list EvalResult;
  bs_all_alerts : list RegressionAlert;
  bs_uuid : nat
}.

(** The inner loop: [for alert in alerts: alert.eval_run_id = run_id]. *)
Definition stamp (run_id : string) (alerts : list RegressionAlert)
  : list RegressionAlert :=
  foldl (fun done alert => done ++ [set_eval_run_id run_id alert]) [] alerts.

(** The body of the outer loop, at the [i]-th element of [results]. *)
Definition batch_step (run_id : string) (st : BatchState) (i : nat) : BatchState :=
  match bs_results st !! i with
  | None => st
  | Some result =>
    let '(alerts, uuid) := check result (bs_uuid st) in
    let alerts := stamp run_id alerts in
    let all_alerts := bs_all_alerts st ++ alerts in
    let results := <[i := set_alerts alerts result]> (bs_results st) in
    mkBatchState results all_alerts uuid
  end.

Definition check_batch (results : list EvalResult) (run_id : string) (uuid : nat)
  : BatchState :=
  foldl (batch_step run_id) (mkBatchState results [] uuid)
        (seq 0 (length results)).

End check.

End RegressionDetector.

(** ** Eval run aggregator ([EvalRun.compute_summary]) *)

(** [r.score_card.weighted_score] *)
Definition card_weighted_score (r : EvalResult) : result Qc :=
  match score_card r with
  | Some card => Ok (weighted_score card)
  | None => Raise AttributeError
  end.

(** [[r for r in l if p(r)]] for a predicate that may raise. *)
Fixpoint filterM {A} (p : A -> result bool) (l : list A) : result (list A) :=
  match l with
  | [] => Ok []
  | a :: l' =>
    b ← p a;
    rest ← filterM p l';
    mret (if (b : bool) then a :: rest else rest)
  end.

(** [sum(f(r) for r in l)] *)
Definition sumM {A} (f : A -> result Qc) (l : list A) : result Qc :=
  foldlM (fun acc a => v ← f a; mret (acc + v)) l (Num.lit 0 1).

Definition has_score_card (r : EvalResult) : bool :=
  match score_card r with
  | Some _ => true
  | None => false
  end.

(** [EvalRun.compute_summary]: the new state of the run.  The average is
    assigned under [if completed:] only; otherwise the field keeps the
    value it has. *)
Definition compute_summary (self : EvalRun) : result EvalRun :=
  let completed := filter (fun r => has_score_card r = true) (results self) in
  let total_episodes := length (results self) in
  passed_l ← filterM (fun r => w ← card_weighted_score r;
                               mret (Num.geb w (Num.lit 7 10))) completed;
  let passed := length passed_l in
  failed_l ← filterM (fun r => w ← card_weighted_score r;
                               mret (Num.ltb w (Num.lit 7 10))) completed;
  let failed := length failed_l in
  avg ←
    (if bool_decide (completed = []) then mret (avg_weighted_score self)
     else
       total ← sumM card_weighted_score completed;
       q ← Num.div total (Num.of_nat (length completed));
       mret (Num.round q 4));
  let alerts := foldl (fun acc r => acc ++ alerts r) [] (results self) in
  mret (mkEvalRun (run_id self) (config self) (run_status self) (results self)
          alerts total_episodes passed failed avg).

(** ** Concrete inputs used by the examples below *)

(** No attribute is inherited from the base class. *)
Definition no_inherited : string -> option PyValue := fun _ => None.

Definition step_of (kind : string) : Step := mkStep None (Some kind) None.

(** The episode of the test fixtures. *)
Definition sample_episode : Episode :=
  mkEpisode (Some "ep-test-001") (Some "test-agent") (Some "success")
    (Some [step_of "llm_call"; step_of "tool_call"]) (Some ["calculator"])
    (Some (Num.lit 4 1000)) (Some (Num.lit 600 1))
    ["total_tokens"; "step_count"; "started_at"; "ended_at"; "metadata"].

(** An episode that only carries the given cost and duration. *)
Definition priced (cost duration : Qc) : Episode :=
  mkEpisode None None None None None (Some cost) (Some duration) [].

(** ** Vocabulary of the specification *)

(** The aggregate cost and duration of an episode (zero when missing). *)
Definition total_cost (e : Episode) : Qc := default (Num.lit 0 1) (ep_total_cost_usd e).
Definition total_duration (e : Episode) : Qc :=
  default (Num.lit 0 1) (ep_total_duration_ms e).

(** The rules of the regression detector, in the order of the
    specification (rule 1, the absent score card, is not a rule that
    fires). *)
Inductive Rule : Set :=
| RuleCost          (* rule 2 *)
| RuleLatency       (* rule 3 *)
| RuleCorrectness   (* rule 4 *)
| RuleToolMatch     (* rule 5 *)
| RuleSafety        (* rule 6 *)
| RuleOverall.      (* rule 7 *)

Definition rules_in_order : list Rule :=
  [RuleCost; RuleLatency; RuleCorrectness; RuleToolMatch; RuleSafety; RuleOverall].

(** When a rule fires. *)
Definition fires (config : EvalConfig) (card : ScoreCard) (r : Rule) : Prop :=
  match r with
  | RuleCost => cost_threshold_pct config < cost_delta card
  | RuleLatency => latency_threshold_pct config < latency_delta card
  | RuleCorrectness => correctness card < Num.lit 5 10
  | RuleToolMatch => tool_match card < Num.lit 5 10
  | RuleSafety => safety card < Num.lit 8 10
  | RuleOverall => weighted_score card < Num.lit 5 10
  end.

Global Instance fires_dec config card r : Decision (fires config card r).
Proof. destruct r; simpl; apply _. Defined.

(** Critical above twice the threshold, warning otherwise. *)
Definition doubling_severity (delta threshold : Qc) : RegressionSeverity :=
  if decide (Num.lit 2 1 * threshold < delta) then CRITICAL else WARNING.

Definition rule_dimension (r : Rule) : ScoreDimension :=
  match r with
  | RuleCost => COST_DELTA
  | RuleLatency => LATENCY_DELTA
  | RuleCorrectness => CORRECTNESS
  | RuleToolMatch => TOOL_MATCH
  | RuleSafety => SAFETY
  | RuleOverall => CORRECTNESS
  end.

Definition rule_severity (config : EvalConfig) (card : ScoreCard) (r : Rule)
  : RegressionSeverity :=
  match r with
  | RuleCost => doubling_severity (cost_delta card) (cost_threshold_pct config)
  | RuleLatency => doubling_severity (latency_delta card) (latency_threshold_pct config)
  | RuleCorrectness => CRITICAL
  | RuleToolMatch => WARNING
  | RuleSafety => CRITICAL
  | RuleOverall => CRITICAL
  end.

(** The alerts the rules prescribe for a card: one per rule that fires, in
    rule order, each with its rule, dimension tag and severity. *)
Definition prescribed (config : EvalConfig) (card : ScoreCard)
  : list (Rule * ScoreDimension * RegressionSeverity) :=
  (fun r => (r, rule_dimension r, rule_severity config card r))
    <$> filter (fires config card) rules_in_order.

(** The rule an alert was raised by, read off its message. *)
Definition message_rule (m : Message) : Rule :=
  match m with
  | MsgCost _ _ => RuleCost
  | MsgLatency _ _ => RuleLatency
  | MsgCorrectness _ => RuleCorrectness
  | MsgToolMatch _ => RuleToolMatch
  | MsgSafety _ => RuleSafety
  | MsgOverall _ => RuleOverall
  end.

Definition alert_view (a : RegressionAlert) : Rule * ScoreDimension * RegressionSeverity :=
  (message_rule (message a), dimension a, severity a).

(** The batch contract, result by result: check the head with the current
    id supply, stamp its alerts with the run id, attach them to it, and go
    on with the rest; the answer is the updated results, the flattened
    alerts and the id supply left. *)
Fixpoint batch_contract (config : EvalConfig) (run_id : string)
    (results : list EvalResult) (uuid : nat)
  : list EvalResult * list RegressionAlert * nat :=
  match results with
  | [] => ([], [], uuid)
  | r :: rest =>
    let found := RegressionDetector.check config r uuid in
    let stamped := set_eval_run_id run_id <$> fst found in
    let '(rest', all, uuid') := batch_contract config run_id rest (snd found) in
    (set_alerts stamped r :: rest', stamped ++ all, uuid')
  end.

(** A score card with the given cost delta and weighted score, the other
    dimensions being good (the cards of the detector's tests). *)
Definition card_with (cost weighted : Qc) : ScoreCard :=
  mkScoreCard "ep-1" "a" None (Num.lit 9 10) cost (Num.lit 0 1) (Num.lit 9 10)
    (Num.lit 1 1) weighted [].

Definition scored (card : ScoreCard) : EvalResult :=
  mkEvalResult (sc_episode_id card) (sc_agent_id card) COMPLETED (Some card) [] None 0.

(** A result whose episode could not be scored. *)
Definition unscored : EvalResult :=
  mkEvalResult "ep-2" "a" FAILED None [] None 0.

(** A run that already carries an average of 0.9 and whose only result
    has no score card. *)
Definition stale_run : EvalRun :=
  mkEvalRun "run-1" default_config COMPLETED [unscored] [] 1 1 0 (Num.lit 9 10).

(** The weighted score of a result, 0.0 standing for an absent card. *)
Definition weighted_of (r : EvalResult) : Qc :=
  default (Num.lit 0 1) (weighted_score <$> score_card r).

(** The [0,1] goodness of a delta: [max(0, 1 - abs(delta)/100)]. *)
Definition delta_goodness (delta : Qc) : Qc :=
  Num.max (Num.lit 0 1) (Num.lit 1 1 - Num.abs delta / Num.lit 100 1).

(** The value a dimension contributes to the weighted score: the two
    deltas through their goodness, the other three as they are. *)
Definition contribution (card : ScoreCard) (d : ScoreDimension) : Qc :=
  match d with
  | CORRECTNESS => correctness card
  | COST_DELTA => delta_goodness (cost_delta card)
  | LATENCY_DELTA => delta_goodness (latency_delta card)
  | TOOL_MATCH => tool_match card
  | SAFETY => safety card
  end.

(** The sum, over the dimensions present in the weight map, of value times
    weight. *)
Definition weighted_sum (card : ScoreCard) (weights : gmap string Qc) : Qc :=
  foldr Qcplus (Num.lit 0 1)
    ((fun d => match weights !! dimension_name d with
               | Some w => contribution card d * w
               | None => Num.lit 0 1
               end) <$> all_dimensions).

(** Every key of the weight map is the name of a score dimension. *)
Definition over_dimensions (weights : gmap string Qc) : Prop :=
  forall k w, weights !! k = Some w -> exists d, k = dimension_name d.

(** The dimension a key of the weight map names, if any. *)
Definition dimension_of_name (k : string) : option ScoreDimension :=
  if String.eqb k "correctness" then Some CORRECTNESS
  else if String.eqb k "cost_delta" then Some COST_DELTA
  else if String.eqb k "latency_delta" then Some LATENCY_DELTA
  else if String.eqb k "tool_match" then Some TOOL_MATCH
  else if String.eqb k "safety" then Some SAFETY
  else None.

(** The term an entry of the weight map adds to the total. *)
Definition weighted_term (card : ScoreCard) (item : string * Qc) : Qc :=
  match dimension_of_name (fst item) with
  | Some d => contribution card d * snd item
  | None => Num.lit 0 1
  end.

Definition list_sum (l : list Qc) : Qc := foldr Qcplus (Num.lit 0 1) l.

(** The tool names of an episode, in order (none when missing). *)
Definition tools_of (e : Episode) : list string := default [] (ep_tools_used e).

(** Jaccard overlap of the two sets of tool names. *)
Definition jaccard (current baseline : list string) : Qc :=
  let A : gset string := list_to_set current in
  let B : gset string := list_to_set baseline in
  Num.of_nat (size (A ∩ B)) / Num.of_nat (size (A ∪ B)).

(** The number of positions, among the first [min(len, len)], at which the
    two lists hold the same tool. *)
Definition position_matches (current baseline : list string) : nat :=
  length (filter (fun p => fst p = snd p) (zip current baseline)).

Definition position_ratio (current baseline : list string) : Qc :=
  Num.of_nat (position_matches current baseline)
  / Num.of_nat (Nat.min (length current) (length baseline)).

(** The steps of an episode (none when missing) and the number of them
    whose kind is "error". *)
Definition steps_of (e : Episode) : list Step := default [] (ep_steps e).
Definition error_count (e : Episode) : nat :=
  length (filter (fun s => step_type s = Some "error") (steps_of e)).

(** The results of a run that have a score card. *)
Definition completed_of (self : EvalRun) : list EvalResult :=
  filter (fun r => has_score_card r = true) (results self).

(** The summary [compute_summary] leaves on a run: every field is computed
    from the results, except the average when no result has a score card,
    which is then left as it was. *)
Definition summary_of (self : EvalRun) : EvalRun :=
  let completed := completed_of self in
  mkEvalRun (run_id self) (config self) (run_status self) (results self)
    (concat (alerts <$> results self))
    (length (results self))
    (length (filter (fun r => Num.lit 7 10 <= weighted_of r) completed))
    (length (filter (fun r => weighted_of r < Num.lit 7 10) completed))
    (if decide (completed = []) then avg_weighted_score self
     else Num.round (list_sum (weighted_of <$> completed)
                     / Num.of_nat (length completed)) 4).

(** ** The eval run of the command line ([cli/main.py], [_run_eval]) *)

(** An entry of the episode listing. *)
Record EpisodeSummary : Type := mkEpisodeSummary {
  sum_episode_id : option string;
  sum_agent_id : option string
}.

(** How [_run_eval] ends: [sys.exit(code)], a finished run (with the id
    supply left), or an exception that escapes. *)
Inductive RunOutcome : Type :=
| Exited (code : Z)
| Finished (run : EvalRun) (uuid : nat)
| Escaped (e : exn).

Definition set_results (v : list EvalResult) (r : EvalRun) : EvalRun :=
  mkEvalRun (run_id r) (config r) (run_status r) v (run_alerts r)
    (total_episodes r) (passed r) (failed r) (avg_weighted_score r).

Definition set_run_status (v : EvalStatus) (r : EvalRun) : EvalRun :=
  mkEvalRun (run_id r) (config r) v (results r) (run_alerts r)
    (total_episodes r) (passed r) (failed r) (avg_weighted_score r).

Module Cli.

Section run_eval.

(** The episode store: [client.get_episode] answers with the episode, or
    raises (the text of the exception is what is kept). *)
Variable get_episode : string -> Episode + string.
(** [str(e)] for an exception of the scoring engine. *)
Variable str_exn : exn -> string.
Variable inherited_attr : string -> option PyValue.
Variable config : EvalConfig.

(** The body of the loop: the [try] block and its [except Exception]. *)
Definition evaluate (ep_summary : EpisodeSummary) : EvalResult :=
  let ep_id := default "" (sum_episode_id ep_summary) in
  let failed (message : string) :=
    mkEvalResult ep_id (default "" (sum_agent_id ep_summary)) FAILED None []
      (Some message) 0 in
  match get_episode ep_id with
  | inr message => failed message
  | inl episode =>
    match ScoringEngine.score inherited_attr config episode None with
    | Raise e => failed (str_exn e)
    | Ok card =>
      mkEvalResult ep_id (default "" (ep_agent_id episode)) COMPLETED (Some card) []
        None 0
    end
  end.

(** [_run_eval], given what [client.list_episodes] answered ([None] when it
    raised), the id of the new run and the supply of alert ids.  What is
    printed on the console and the optional dump of the run to a file are
    not represented; the gateway address is not used by the function. *)
Definition _run_eval (episodes : option (list EpisodeSummary))
    (new_run_id : string) (uuid : nat) : RunOutcome :=
  let eval_run := mkEvalRun new_run_id config RUNNING [] [] 0 0 0 (Num.lit 0 1) in
  match episodes with
  | None => Exited 1
  | Some episodes =>
    let results :=
      foldl (fun results ep_summary => results ++ [evaluate ep_summary])
            (results eval_run) episodes in
    (* [check_batch] updates the elements of [eval_run.results] in place *)
    let st := RegressionDetector.check_batch config results (run_id eval_run) uuid in
    let eval_run := set_results (RegressionDetector.bs_results st) eval_run in
    let eval_run := set_run_status COMPLETED eval_run in
    match compute_summary eval_run with
    | Ok eval_run => Finished eval_run (RegressionDetector.bs_uuid st)
    | Raise e => Escaped e
    end
  end.

End run_eval.

End Cli.

(** ** Live replay ([pkg/runner/replay.py]) *)

(** A step as [_live_replay] reads it. *)
Record GatewayStep : Type := mkGatewayStep {
  gs_step_index : option nat;
  gs_step_type : option string;
  gs_model : option string;
  gs_input_summary : option string
}.

(** The JSON body of a gateway response: [usage] may be missing, and may
    lack [total_tokens]. *)
Record Response : Type := mkResponse {
  resp_usage : option (option Z)
}.

(** What a request to the gateway comes to: a decoded body, an
    [httpx.HTTPError] (with its text), or any other exception. *)
Inductive GatewayAnswer : Type :=
| Answered (data : Response)
| HttpError (message : string)
| Crashed.

Inductive ReplayedStep : Type :=
| Skipped (step_index : nat)
| Replayed (step_index : nat) (model : string) (response : Response) (tokens : Z)
| Errored (step_index : nat) (error : string).

Inductive replay_exn : Type :=
| KeyError (key : string)
| GatewayCrash.

Module ReplayRunner.

Section live_replay.

(** [http.post(url, json={model, messages})], [raise_for_status] and
    [resp.json()]. *)
Variable post : string -> string -> string -> GatewayAnswer.
Variable gateway_url : string.

(** [step["step_index"]] *)
Definition index_of (step : GatewayStep) : nat + replay_exn :=
  match gs_step_index step with
  | Some i => inl i
  | None => inr (KeyError "step_index")
  end.

(** [data.get("usage", {}).get("total_tokens", 0)] *)
Definition total_tokens (data : Response) : Z :=
  default 0%Z (default None (resp_usage data)).

(** The body of the loop: the entry appended for a step, or the exception
    that leaves the loop. *)
Definition replay_step (step : GatewayStep) : ReplayedStep + replay_exn :=
  if negb (opt_str_eqb (gs_step_type step) (Some "llm_call")) then
    match index_of step with
    | inl i => inl (Skipped i)
    | inr e => inr e
    end
  else
    let model := default "gpt-4" (gs_model step) in
    let input_text := default "" (gs_input_summary step) in
    match post (String.append gateway_url "/v1/chat/completions") model input_text with
    | Answered data =>
      match index_of step with
      | inl i => inl (Replayed i model data (total_tokens data))
      | inr e => inr e
      end
    | HttpError message =>
      match index_of step with
      | inl i => inl (Errored i message)
      | inr e => inr e
      end
    | Crashed => inr GatewayCrash
    end.

Fixpoint replay_loop (steps : list GatewayStep) (replayed : list ReplayedStep)
  : list ReplayedStep + replay_exn :=
  match steps with
  | [] => inl replayed
  | step :: rest =>
    match replay_step step with
    | inl entry => replay_loop rest (replayed ++ [entry])
    | inr e => inr e
    end
  end.

(** [_live_replay(episode)], on the [steps] of the episode ([None] when the
    key is missing). *)
Definition _live_replay (steps : option (list GatewayStep))
  : list ReplayedStep + replay_exn :=
  replay_loop (default [] steps) [].

End live_replay.

End ReplayRunner.

(** ** Episode store client ([pkg/client/episode_client.py]) *)

(** [s.rstrip(c)] for a single character [c]: the trailing run of [c] is
    removed. *)
Fixpoint rstrip (c : ascii) (s : string) : string :=
  match s with
  | EmptyString => EmptyString
  | String a rest =>
    match rstrip c rest with
    | EmptyString => if Ascii.eqb a c then EmptyString else String a EmptyString
    | String b kept => String a (String b kept)
    end
  end.

(** A value of the query string. *)
Inductive Param : Type :=
| PInt (z : Z)
| PStr (s : string).

Module EpisodeClient.

(** [EpisodeClient.__init__]: the attribute [base_url]. *)
Definition __init__ (base_url : string) : string := rstrip "/"%char base_url.

(** [if value: params[key] = value], for an optional string. *)
Definition add_filter (key : string) (value : option string)
    (params : gmap string Param) : gmap string Param :=
  match value with
  | Some v => if String.eqb v "" then params else <[key := PStr v]> params
  | None => params
  end.

(** The query [list_episodes] sends to [/v1/episodes]. *)
Definition list_episodes_params (agent_id status model provider tool : option string)
    (limit offset : Z) : gmap string Param :=
  let params : gmap string Param :=
    <["limit" := PInt limit]> (<["offset" := PInt offset]> ∅) in
  let params := add_filter "agent_id" agent_id params in
  let params := add_filter "status" status params in
  let params := add_filter "model" model params in
  let params := add_filter "provider" provider params in
  let params := add_filter "tool" tool params in
  params.

End EpisodeClient.

(** ** Vocabulary of the further properties *)



(** The sum of the weights given to the five dimensions. *)
Definition total_weight (weights : gmap string Qc) : Qc :=
  list_sum ((fun d => default (Num.lit 0 1) (weights !! dimension_name d))
              <$> all_dimensions).

(** The two shapes of a result of the loop of [_run_eval]. *)
Definition well_formed_result (r : EvalResult) : Prop :=
  (er_status r = COMPLETED /\ is_Some (score_card r) /\ error r = None) \/
  (er_status r = FAILED /\ score_card r = None /\ is_Some (error r) /\ alerts r = []).



Definition entry_index (e : ReplayedStep) : nat :=
  match e with
  | Skipped i => i
  | Replayed i _ _ _ => i
  | Errored i _ => i
  end.

Definition is_skipped (e : ReplayedStep) : bool :=
  match e with
  | Skipped _ => true
  | _ => false
  end.

(** The string of [n] slashes. *)
Fixpoint slashes (n : nat) : string :=
  match n with
  | O => EmptyString
  | S n' => String "/"%char (slashes n')
  end.

(** The last character of a string, if any. *)
Fixpoint last_char (s : string) : option ascii :=
  match s with
  | EmptyString => None
  | String a EmptyString => Some a
  | String _ rest => last_char rest
  end.

(** The non-empty value of an optional string. *)
Definition filter_value (value : option string) : option Param :=
  match value with
  | Some v => if String.eqb v "" then None else Some (PStr v)
  | None => None
  end.

(** ** Concrete collaborators used by the examples *)



(** A gateway that is down, and two steps: a model call and a tool call. *)
Definition gateway_down (url model input : string) : GatewayAnswer :=
  HttpError "connection refused".

(** ** Numbers as the interpreter has them

    The values the specification fixes digit for digit depend on how the
    interpreter computes: a JSON number is an integer of any size or a
    binary64 float, [/] on two integers is the correctly rounded quotient
    and raises [OverflowError] when that is beyond the largest float, and
    [round] works on the binary value of its argument.  [Float64] is that
    arithmetic, over the binary64 instance of [SpecFloat]. *)

Module Float64.

Definition prec : Z := 53%Z.
Definition emax : Z := 1024%Z.

(** A binary64 float: a signed zero, a signed infinity, NaN, or the finite
    number [(-1)^s * m * 2^e]. *)
Definition float : Type := spec_float.

Definition add : float -> float -> float := SFadd prec emax.
Definition sub : float -> float -> float := SFsub prec emax.
Definition mul : float -> float -> float := SFmul prec emax.
Definition div : float -> float -> float := SFdiv prec emax.
Definition ltb : float -> float -> bool := SFltb.
Definition eqb : float -> float -> bool := SFeqb.

(** [abs(x)] *)
Definition abs : float -> float := SFabs.

(** [max(a, b)]: the first argument unless the second is strictly larger. *)
Definition max (a b : float) : float := if ltb a b then b else a.

(** Neither an infinity nor NaN. *)
Definition is_finite (x : float) : bool :=
  match x with
  | S754_zero _ | S754_finite _ _ _ => true
  | _ => false
  end.

(** An integer as an unrounded significand. *)
Definition exact (z : Z) : float :=
  match z with
  | Z0 => S754_zero false
  | Zpos p => S754_finite false p 0%Z
  | Zneg p => S754_finite true p 0%Z
  end.

(** The float nearest to the rational [a/b] (ties to even), for [b <> 0]. *)
Definition quotient (a b : Z) : float := div (exact a) (exact b).

(** The float nearest to the integer [z]. *)
Definition of_Z (z : Z) : float := binary_normalize prec emax z 0%Z false.

(** The decimal literal [n/d]: the float nearest to it. *)
Definition lit (n : Z) (d : positive) : float := quotient n (Zpos d).

Definition zero : float := S754_zero false.
Definition one : float := lit 1 1.

(** The integer nearest to [num/den], ties to even, for [den > 0]. *)
Definition nearest (num den : Z) : Z :=
  let q := (num / den)%Z in
  let r := (num mod den)%Z in
  match (2 * r ?= den)%Z with
  | Lt => q
  | Gt => (q + 1)%Z
  | Eq => if Z.even q then q else (q + 1)%Z
  end.

(** [round(x, n)] for [n >= 0]: the binary value of [x] is rounded to the
    nearest multiple [k/10^n] of [10^-n] (ties to even), and the result is
    the float nearest to that decimal, with the sign of [x]; NaN and the
    infinities are returned as they are. *)
Definition round (x : float) (n : nat) : float :=
  match x with
  | S754_finite s m e =>
    let p := (10 ^ Z.of_nat n)%Z in
    let k :=
      match e with
      | Zneg d => nearest (Zpos m * p) (2 ^ Zpos d)
      | _ => (Zpos m * 2 ^ e * p)%Z
      end in
    div (if s then SFopp (exact k) else exact k) (exact p)
  | _ => x
  end.

(** A JSON number. *)
Inductive Number : Type :=
| Int (z : Z)
| Float (x : float).

(** [float(z)] *)
Definition of_int (z : Z) : result float :=
  match of_Z z with
  | S754_infinity _ => Raise OverflowError
  | x => Ok x
  end.

(** The float operand an arithmetic operator makes of a number. *)
Definition to_float (v : Number) : result float :=
  match v with
  | Int z => of_int z
  | Float x => Ok x
  end.

(** [a / b] on two integers *)
Definition int_truediv (a b : Z) : result float :=
  if (b =? 0)%Z then Raise ZeroDivisionError
  else
    match quotient a b with
    | S754_infinity _ => Raise OverflowError
    | q => Ok q
    end.

(** [x / y] on two floats *)
Definition float_truediv (x y : float) : result float :=
  if eqb y zero then Raise ZeroDivisionError else Ok (div x y).

(** [v - w] *)
Definition num_sub (v w : Number) : result Number :=
  match v, w with
  | Int a, Int b => Ok (Int (a - b))
  | _, _ => x ← to_float v; y ← to_float w; mret (Float (sub x y))
  end.

(** [v / w] *)
Definition num_truediv (v w : Number) : result float :=
  match v, w with
  | Int a, Int b => int_truediv a b
  | _, _ => x ← to_float v; y ← to_float w; float_truediv x y
  end.

(** [x * k] for an integer [k] *)
Definition float_mul_int (x : float) (k : Z) : result float :=
  y ← of_int k; mret (mul x y).

(** [v == 0] *)
Definition is_zero (v : Number) : bool :=
  match v with
  | Int z => (z =? 0)%Z
  | Float x => eqb x zero
  end.

#[global] Arguments add : simpl never.
#[global] Arguments sub : simpl never.
#[global] Arguments mul : simpl never.
#[global] Arguments div : simpl never.
#[global] Arguments round : simpl never.
#[global] Arguments quotient : simpl never.
#[global] Arguments of_Z : simpl never.
#[global] Arguments lit : simpl never.

End Float64.

(** ** The score card and the engine over these numbers

    [Engine64] is [ScoreCard.compute_weighted] and [pkg/scoring/engine.py]
    once more, statement by statement, with [Float64] numbers: the cost and
    the duration of an episode are JSON numbers, the fields of a score card
    are floats, and the weight map is the dictionary in insertion order
    (the order in which the loop adds the terms). *)

Module Engine64.

Record Episode : Type := mkEpisode {
  ep_episode_id : option string;
  ep_agent_id : option string;
  ep_status : option string;
  ep_steps : option (list Step);
  ep_tools_used : option (list string);
  ep_total_cost_usd : option Float64.Number;
  ep_total_duration_ms : option Float64.Number;
  (** keys present in the dictionary that the engine never reads *)
  ep_other_keys : list string
}.

(** [len(d)] for the dictionary. *)
Definition dict_len (e : Episode) : nat :=
  has_key (ep_episode_id e) + has_key (ep_agent_id e) +
  has_key (ep_status e) + has_key (ep_steps e) +
  has_key (ep_tools_used e) + has_key (ep_total_cost_usd e) +
  has_key (ep_total_duration_ms e) + length (ep_other_keys e).

(** Truth value of an optional dictionary: [None] and [{}] are false. *)
Definition truthy (d : option Episode) : bool :=
  match d with
  | None => false
  | Some e => negb (Nat.eqb (dict_len e) 0)
  end.

Record ScoreCard : Type := mkScoreCard {
  sc_episode_id : string;
  sc_agent_id : string;
  baseline_episode_id : option string;
  correctness : Float64.float;
  cost_delta : Float64.float;
  latency_delta : Float64.float;
  tool_match : Float64.float;
  safety : Float64.float;
  weighted_score : Float64.float;
  details : list (string * string)
}.

(** [ScoreCard(episode_id=..., agent_id=..., baseline_episode_id=...)]: the
    remaining fields take their declared defaults. *)
Definition new_ScoreCard (eid aid : string) (bid : option string) : ScoreCard :=
  mkScoreCard eid aid bid Float64.zero Float64.zero Float64.zero Float64.zero
    Float64.one Float64.zero [].

Definition set_episode_id (v : string) (c : ScoreCard) : ScoreCard :=
  mkScoreCard v (sc_agent_id c) (baseline_episode_id c)
    (correctness c) (cost_delta c) (latency_delta c) (tool_match c) (safety c)
    (weighted_score c) (details c).
Definition set_correctness (v : Float64.float) (c : ScoreCard) : ScoreCard :=
  mkScoreCard (sc_episode_id c) (sc_agent_id c) (baseline_episode_id c)
    v (cost_delta c) (latency_delta c) (tool_match c) (safety c)
    (weighted_score c) (details c).
Definition set_cost_delta (v : Float64.float) (c : ScoreCard) : ScoreCard :=
  mkScoreCard (sc_episode_id c) (sc_agent_id c) (baseline_episode_id c)
    (correctness c) v (latency_delta c) (tool_match c) (safety c)
    (weighted_score c) (details c).
Definition set_latency_delta (v : Float64.float) (c : ScoreCard) : ScoreCard :=
  mkScoreCard (sc_episode_id c) (sc_agent_id c) (baseline_episode_id c)
    (correctness c) (cost_delta c) v (tool_match c) (safety c)
    (weighted_score c) (details c).
Definition set_tool_match (v : Float64.float) (c : ScoreCard) : ScoreCard :=
  mkScoreCard (sc_episode_id c) (sc_agent_id c) (baseline_episode_id c)
    (correctness c) (cost_delta c) (latency_delta c) v (safety c)
    (weighted_score c) (details c).
Definition set_safety (v : Float64.float) (c : ScoreCard) : ScoreCard :=
  mkScoreCard (sc_episode_id c) (sc_agent_id c) (baseline_episode_id c)
    (correctness c) (cost_delta c) (latency_delta c) (tool_match c) v
    (weighted_score c) (details c).
Definition set_weighted_score (v : Float64.float) (c : ScoreCard) : ScoreCard :=
  mkScoreCard (sc_episode_id c) (sc_agent_id c) (baseline_episode_id c)
    (correctness c) (cost_delta c) (latency_delta c) (tool_match c) (safety c)
    v (details c).

(** What an attribute of a score card can hold, as far as arithmetic with
    a weight is concerned. *)
Inductive PyValue : Type :=
| PyNum (v : Float64.Number)
| PyStr (s : string)
| PyNone
| PyObject.

(** [abs(v)] *)
Definition py_abs (v : PyValue) : result Float64.Number :=
  match v with
  | PyNum (Float64.Int z) => Ok (Float64.Int (Z.abs z))
  | PyNum (Float64.Float x) => Ok (Float64.Float (Float64.abs x))
  | _ => Raise TypeError
  end.

(** [v * w] for a float [w] *)
Definition py_mul (v : PyValue) (w : Float64.float) : result Float64.float :=
  match v with
  | PyNum n => x ← Float64.to_float n; mret (Float64.mul x w)
  | _ => Raise TypeError
  end.

Section ScoreCard_methods.

(** The attributes a [ScoreCard] instance inherits from pydantic's
    [BaseModel], whose definition is not part of this repository: the
    table gives the value of each inherited name. *)
Variable inherited_attr : string -> option PyValue.

(** [getattr(self, dim, default)] *)
Definition getattr (self : ScoreCard) (dim : string) (dflt : PyValue) : PyValue :=
  if String.eqb dim "episode_id" then PyStr (sc_episode_id self)
  else if String.eqb dim "agent_id" then PyStr (sc_agent_id self)
  else if String.eqb dim "baseline_episode_id" then
    match baseline_episode_id self with
    | Some s => PyStr s
    | None => PyNone
    end
  else if String.eqb dim "correctness" then PyNum (Float64.Float (correctness self))
  else if String.eqb dim "cost_delta" then PyNum (Float64.Float (cost_delta self))
  else if String.eqb dim "latency_delta" then PyNum (Float64.Float (latency_delta self))
  else if String.eqb dim "tool_match" then PyNum (Float64.Float (tool_match self))
  else if String.eqb dim "safety" then PyNum (Float64.Float (safety self))
  else if String.eqb dim "weighted_score" then PyNum (Float64.Float (weighted_score self))
  else if String.eqb dim "details" then PyObject
  else if String.eqb dim "compute_weighted" then PyObject
  else default dflt (inherited_attr dim).

(** One iteration of the loop of [compute_weighted]. *)
Definition weighted_step (self : ScoreCard) (total : Float64.float)
    (item : string * Float64.float) : result Float64.float :=
  let '(dim, weight) := item in
  let value := getattr self dim (PyNum (Float64.Float Float64.zero)) in
  value ←
    (if is_delta dim then
       a ← py_abs value;
       q ← Float64.num_truediv a (Float64.Float (Float64.lit 100 1));
       mret (PyNum (Float64.Float
                      (Float64.max Float64.zero (Float64.sub Float64.one q))))
     else mret value);
  term ← py_mul value weight;
  mret (Float64.add total term).

(** [ScoreCard.compute_weighted]: the new state of the card and the
    returned value.  [weights.items()] is the list of entries in insertion
    order. *)
Definition compute_weighted (self : ScoreCard)
    (weights : list (string * Float64.float))
  : result (ScoreCard * Float64.float) :=
  total ← foldlM (weighted_step self) weights Float64.zero;
  let self' := set_weighted_score (Float64.round total 4) self in
  mret (self', weighted_score self').

End ScoreCard_methods.

Module ScoringEngine.

Definition _score_correctness (current baseline : Episode) : result Float64.float :=
  let current_status := default "" (ep_status current) in
  let baseline_status := default "" (ep_status baseline) in
  let score :=
    if String.eqb current_status baseline_status then Float64.lit 1 1
    else if String.eqb current_status "success" then Float64.lit 8 10
    else Float64.lit 0 1 in
  let current_steps := length (default [] (ep_steps current)) in
  let baseline_steps := length (default [] (ep_steps baseline)) in
  score ←
    (if Nat.ltb 0 current_steps && Nat.ltb 0 baseline_steps then
       step_ratio ← Float64.int_truediv
                      (Z.of_nat (Nat.min current_steps baseline_steps))
                      (Z.of_nat (Nat.max current_steps baseline_steps));
       mret (Float64.add (Float64.mul score (Float64.lit 7 10))
                         (Float64.mul step_ratio (Float64.lit 3 10)))
     else mret score);
  mret (Float64.round score 4).

Definition _score_cost_delta (current baseline : Episode) : result Float64.float :=
  let current_cost :=
    default (Float64.Float (Float64.lit 0 1)) (ep_total_cost_usd current) in
  let baseline_cost :=
    default (Float64.Float (Float64.lit 0 1)) (ep_total_cost_usd baseline) in
  if Float64.is_zero baseline_cost then mret (Float64.lit 0 1)
  else
    d ← Float64.num_sub current_cost baseline_cost;
    q ← Float64.num_truediv d baseline_cost;
    delta_pct ← Float64.float_mul_int q 100;
    mret (Float64.round delta_pct 2).

Definition _score_latency_delta (current baseline : Episode) : result Float64.float :=
  let current_ms := default (Float64.Int 0) (ep_total_duration_ms current) in
  let baseline_ms := default (Float64.Int 0) (ep_total_duration_ms baseline) in
  if Float64.is_zero baseline_ms then mret (Float64.lit 0 1)
  else
    d ← Float64.num_sub current_ms baseline_ms;
    q ← Float64.num_truediv d baseline_ms;
    delta_pct ← Float64.float_mul_int q 100;
    mret (Float64.round delta_pct 2).

Definition _score_tool_match (current baseline : Episode) : result Float64.float :=
  let current_tools := default [] (ep_tools_used current) in
  let baseline_tools := default [] (ep_tools_used baseline) in
  if bool_decide (baseline_tools = []) && bool_decide (current_tools = [])
  then mret (Float64.lit 1 1)
  else if bool_decide (baseline_tools = []) || bool_decide (current_tools = [])
  then mret (Float64.lit 0 1)
  else
    let current_set : gset string := list_to_set current_tools in
    let baseline_set : gset string := list_to_set baseline_tools in
    let overlap := size (current_set ∩ baseline_set) in
    let union := size (current_set ∪ baseline_set) in
    set_score ←
      (if Nat.ltb 0 union
       then Float64.int_truediv (Z.of_nat overlap) (Z.of_nat union)
       else mret (Float64.lit 1 1));
    let order_score := Float64.lit 0 1 in
    let min_len := Nat.min (length current_tools) (length baseline_tools) in
    order_score ←
      (if Nat.ltb 0 min_len then
         matches ← ScoringEngine.count_matches current_tools baseline_tools min_len;
         Float64.int_truediv (Z.of_nat matches) (Z.of_nat min_len)
       else mret order_score);
    mret (Float64.round
            (Float64.add (Float64.mul set_score (Float64.lit 6 10))
                         (Float64.mul order_score (Float64.lit 4 10))) 4).

Definition _score_safety (episode : Episode) : result Float64.float :=
  let steps := default [] (ep_steps episode) in
  if bool_decide (steps = []) then mret (Float64.lit 1 1)
  else
    let error_steps :=
      filter (fun s => ScoringEngine.is_error_step s = true) steps in
    error_ratio ← Float64.int_truediv (Z.of_nat (length error_steps))
                                      (Z.of_nat (length steps));
    mret (Float64.round (Float64.sub (Float64.lit 1 1) error_ratio) 4).

Section score.

Variable inherited_attr : string -> option PyValue.

(** [self.config.score_weights] *)
Variable score_weights : list (string * Float64.float).

Definition score (original : Episode) (baseline : option Episode)
  : result ScoreCard :=
  let compare :=
    match baseline with
    | Some b => if truthy baseline then b else original
    | None => original
    end in
  let card :=
    new_ScoreCard
      (default "" (ep_episode_id original))
      (default "" (ep_agent_id original))
      (if truthy baseline then ep_episode_id compare else None) in
  v ← _score_correctness original compare;
  let card := set_correctness v card in
  v ← _score_cost_delta original compare;
  let card := set_cost_delta v card in
  v ← _score_latency_delta original compare;
  let card := set_latency_delta v card in
  v ← _score_tool_match original compare;
  let card := set_tool_match v card in
  v ← _score_safety original;
  let card := set_safety v card in
  r ← compute_weighted inherited_attr card score_weights;
  mret (fst r).

End score.

End ScoringEngine.

End Engine64.

(** ** Vocabulary of the claims over these numbers *)

Module Terms64.

(** The aggregate cost and duration of an episode (the defaults of the
    engine when missing: 0.0 and 0). *)
Definition total_cost (e : Engine64.Episode) : Float64.Number :=
  default (Float64.Float (Float64.lit 0 1)) (Engine64.ep_total_cost_usd e).
Definition total_duration (e : Engine64.Episode) : Float64.Number :=
  default (Float64.Int 0) (Engine64.ep_total_duration_ms e).

Definition status_of (e : Engine64.Episode) : string :=
  default "" (Engine64.ep_status e).
Definition steps_of (e : Engine64.Episode) : list Step :=
  default [] (Engine64.ep_steps e).
Definition step_count (e : Engine64.Episode) : nat := length (steps_of e).
Definition tools_of (e : Engine64.Episode) : list string :=
  default [] (Engine64.ep_tools_used e).

(** The number of steps whose kind is "error". *)
Definition error_count (e : Engine64.Episode) : nat :=
  length (filter (fun s => step_type s = Some "error") (steps_of e)).

(** The base of the correctness score: 1.0 for equal statuses, 0.8 for a
    success against a different baseline status, 0.0 otherwise. *)
Definition correctness_base (current baseline : Engine64.Episode) : Float64.float :=
  if decide (status_of current = status_of baseline) then Float64.lit 1 1
  else if decide (status_of current = "success") then Float64.lit 8 10
  else Float64.lit 0 1.

(** [base*0.7 + ratio*0.3], rounded to 4 decimals. *)
Definition correctness_blend (base ratio : Float64.float) : Float64.float :=
  Float64.round
    (Float64.add (Float64.mul base (Float64.lit 7 10))
                 (Float64.mul ratio (Float64.lit 3 10))) 4.


(** The sizes of the intersection and of the union of the two sets of
    tool names. *)
Definition overlap_size (current baseline : list string) : nat :=
  size ((list_to_set current : gset string) ∩ list_to_set baseline).
Definition union_size (current baseline : list string) : nat :=
  size ((list_to_set current : gset string) ∪ list_to_set baseline).

(** [jaccard*0.6 + position_ratio*0.4], rounded to 4 decimals. *)
Definition tool_blend (jaccard position_ratio : Float64.float) : Float64.float :=
  Float64.round
    (Float64.add (Float64.mul jaccard (Float64.lit 6 10))
                 (Float64.mul position_ratio (Float64.lit 4 10))) 4.

(** The [0,1] goodness of a delta: [max(0, 1 - abs(delta)/100)]. *)
Definition delta_goodness (delta : Float64.float) : Float64.float :=
  Float64.max Float64.zero
    (Float64.sub Float64.one
       (Float64.div (Float64.abs delta) (Float64.lit 100 1))).

(** The value a dimension contributes to the weighted score: the two
    deltas through their goodness, the other three as they are. *)
Definition contribution (card : Engine64.ScoreCard) (d : ScoreDimension)
  : Float64.float :=
  match d with
  | CORRECTNESS => Engine64.correctness card
  | COST_DELTA => delta_goodness (Engine64.cost_delta card)
  | LATENCY_DELTA => delta_goodness (Engine64.latency_delta card)
  | TOOL_MATCH => Engine64.tool_match card
  | SAFETY => Engine64.safety card
  end.

(** The sum, over the entries of the weight map that name a dimension, of
    value times weight, added up in the order of the map. *)
Definition weighted_sum (card : Engine64.ScoreCard)
    (weights : list (string * Float64.float)) : Float64.float :=
  foldl (fun total item =>
           match dimension_of_name (fst item) with
           | Some d => Float64.add total (Float64.mul (contribution card d) (snd item))
           | None => total
           end) Float64.zero weights.

(** Every key of the weight map is the name of a score dimension. *)
Definition over_dimensions (weights : list (string * Float64.float)) : Prop :=
  Forall (fun item => exists d, fst item = dimension_name d) weights.

(** The weight map built by the default factory of [score_weights]. *)
Definition default_score_weights : list (string * Float64.float) :=
  [("correctness", Float64.lit 4 10); ("cost_delta", Float64.lit 2 10);
   ("latency_delta", Float64.lit 1 10); ("tool_match", Float64.lit 2 10);
   ("safety", Float64.lit 1 10)].

(** The episode with its [episode_id] key set, or removed. *)
Definition with_episode_id (id : option string) (e : Engine64.Episode)
  : Engine64.Episode :=
  Engine64.mkEpisode id (Engine64.ep_agent_id e) (Engine64.ep_status e)
    (Engine64.ep_steps e) (Engine64.ep_tools_used e)
    (Engine64.ep_total_cost_usd e) (Engine64.ep_total_duration_ms e)
    (Engine64.ep_other_keys e).

(** [f] applied to the value a call returns. *)
Definition on_return {A B} (f : A -> B) (r : result A) : result B :=
  a ← r; mret (f a).

(** No attribute is inherited from the base class. *)
Definition no_inherited : string -> option Engine64.PyValue := fun _ => None.

(** Episodes that only carry the given status and steps, cost, duration,
    tools. *)
Definition outcome (status : string) (steps : list Step) : Engine64.Episode :=
  Engine64.mkEpisode None None (Some status) (Some steps) None None None [].
Definition priced (cost : Float64.Number) : Engine64.Episode :=
  Engine64.mkEpisode None None None None None (Some cost) None [].
Definition with_tools (tools : list string) : Engine64.Episode :=
  Engine64.mkEpisode None None None None (Some tools) None None [].


(** Sixteen tools against seventeen, with one tool in common and no
    position at which the lists agree. *)
Definition sixteen_tools : list string :=
  ["t0"; "t1"; "t2"; "t3"; "t4"; "t5"; "t6"; "t7";
   "t8"; "t9"; "t10"; "t11"; "t12"; "t13"; "t14"; "t15"].
Definition seventeen_tools : list string :=
  ["b0"; "b1"; "b2"; "b3"; "b4"; "b5"; "b6"; "b7";
   "b8"; "b9"; "b10"; "b11"; "b12"; "b13"; "b14"; "b15"; "t0"].



(** An identified episode that only carries the given duration. *)
Definition identified (id : string) (duration : Float64.Number) : Engine64.Episode :=
  Engine64.mkEpisode (Some id) (Some "test-agent") None None None None
    (Some duration) [].

(** The episode of the test fixtures, its duration being an integer, and
    the same episode without its [episode_id]. *)
Definition sample_episode : Engine64.Episode :=
  Engine64.mkEpisode (Some "ep-test-001") (Some "test-agent") (Some "success")
    (Some [step_of "llm_call"; step_of "tool_call"]) (Some ["calculator"])
    (Some (Float64.Float (Float64.lit 4 1000))) (Some (Float64.Int 600))
    ["total_tokens"; "step_count"; "started_at"; "ended_at"; "metadata"].
Definition anonymous_episode : Engine64.Episode :=
  with_episode_id None sample_episode.

End Terms64.

(** * Properties *)

(** ** Numbers *)

Lemma Num_eqb_eq (x y : Qc) : Num.eqb x y = true <-> x = y.
Proof.
  unfold Num.eqb. rewrite Qceq_alt.
  destruct (x ?= y); split; congruence.
Qed.

Lemma Num_eqb_neq (x y : Qc) : Num.eqb x y = false <-> x <> y.
Proof.
  rewrite <- Num_eqb_eq. destruct (Num.eqb x y); split; congruence.
Qed.

Lemma Num_ltb_lt (x y : Qc) : Num.ltb x y = true <-> x < y.
Proof.
  unfold Num.ltb. rewrite Qclt_alt.
  destruct (x ?= y); split; congruence.
Qed.

Lemma Num_ltb_ge (x y : Qc) : Num.ltb x y = false <-> y <= x.
Proof.
  rewrite Qcle_ngt, <- Num_ltb_lt. destruct (Num.ltb x y); split; congruence.
Qed.

Lemma Num_div_ok (x y : Qc) : y <> 0 -> Num.div x y = Ok (x / y).
Proof.
  intros H. unfold Num.div. apply Num_eqb_neq in H. by rewrite H.
Qed.

Lemma Num_of_nat_neq0 (n : nat) : (0 < n)%nat -> Num.of_nat n <> 0.
Proof.
  intros Hn H. unfold Num.of_nat, Num.of_Z in H.
  apply Q2Qc_eq_iff in H. unfold Qeq in H. simpl in H. lia.
Qed.

Lemma list_sum_nil : list_sum [] = 0.
Proof. reflexivity. Qed.

Lemma list_sum_cons (x : Qc) (l : list Qc) : list_sum (x :: l) = x + list_sum l.
Proof. reflexivity. Qed.

(** ** C10: an empty baseline dictionary *)

(** C10. Scoring against a baseline that is supplied but is the empty
    dictionary is the self-score path: the comparison falls back to the
    episode itself and the card is the one of the call without baseline
    (identifier of the baseline included, which is absent in both). *)
Theorem score_empty_baseline_is_self_score
    (inherited_attr : string -> option PyValue) (config : EvalConfig) (E : Episode) :
  ScoringEngine.score inherited_attr config E (Some empty_episode) =
  ScoringEngine.score inherited_attr config E None.
Proof.
  unfold ScoringEngine.score.
  (* [{}] is false: [baseline or original] is [original], and the guard of
     [baseline_episode_id] fails *)
  change (truthy (Some empty_episode)) with false.
  change (truthy None) with false.
  reflexivity.
Qed.

(** ** Comparison of strings *)

Lemma String_eqb_decide (a b : string) {B} (x y : B) :
  (if String.eqb a b then x else y) = (if decide (a = b) then x else y).
Proof.
  destruct (String.eqb_spec a b); destruct (decide (a = b)); congruence.
Qed.

(** ** C2: the rules of the regression detector *)

Lemma Num_gtb_decide (x y : Qc) {B} (a b : B) :
  (if Num.gtb x y then a else b) = (if decide (y < x) then a else b).
Proof.
  unfold Num.gtb. destruct (Num.ltb y x) eqn:E.
  - apply Num_ltb_lt in E. by rewrite decide_True.
  - apply Num_ltb_ge in E. rewrite decide_False; [done|]. by apply Qcle_not_lt.
Qed.

Lemma Num_ltb_decide (x y : Qc) {B} (a b : B) :
  (if Num.ltb x y then a else b) = (if decide (x < y) then a else b).
Proof. apply (Num_gtb_decide y x). Qed.

Lemma cond_append_fst (b : bool) (mk : nat -> RegressionAlert)
    (st : RegressionDetector.DetState) :
  fst (if b then RegressionDetector.append_alert mk st else st)
  = fst st ++ (if b then [mk (snd st)] else []).
Proof. destruct b; simpl; by rewrite ?app_nil_r. Qed.

Lemma filter_fires_cons config card r l :
  filter (fires config card) (r :: l)
  = (if decide (fires config card r) then [r] else []) ++ filter (fires config card) l.
Proof. rewrite filter_cons. by destruct (decide _). Qed.

(** C2. [check] returns no alert for a result without score card, and
    otherwise exactly one alert per rule that fires, in rule order, with
    the dimension tag and the severity of the rule; every alert carries the
    episode of the card and an empty run id. *)
Theorem check_follows_rules (config : EvalConfig) (result : EvalResult) (uuid : nat) :
  match score_card result with
  | None => fst (RegressionDetector.check config result uuid) = []
  | Some card =>
    alert_view <$> fst (RegressionDetector.check config result uuid)
      = prescribed config card /\
    Forall (fun a => ra_episode_id a = sc_episode_id card /\ eval_run_id a = "")
           (fst (RegressionDetector.check config result uuid))
  end.
Proof.
  unfold RegressionDetector.check.
  destruct (score_card result) as [card|]; [|done].
  cbv zeta. rewrite !cond_append_fst.
  unfold prescribed, rules_in_order.
  rewrite !filter_fires_cons, filter_nil.
  rewrite !fmap_app, !Forall_app.
  split.
  - rewrite <- !app_assoc. simpl. rewrite app_nil_r.
    repeat (apply (f_equal2 (@app _)));
      simpl;
      rewrite ?Num_gtb_decide, ?Num_ltb_decide, ?(Qcmult_comm _ (Num.lit 2 1));
      repeat (case_decide; try contradiction); simpl; unfold doubling_severity;
      repeat (case_decide; try contradiction); reflexivity.
  - repeat split;
      try match goal with
          | |- Forall _ (if ?b then _ else _) => destruct b
          end;
      repeat constructor.
Qed.

(** ** C9: the batch check *)

Section batch.

Variable config : EvalConfig.
Variable run_id : string.

Lemma stamp_map (l : list RegressionAlert) :
  RegressionDetector.stamp run_id l = set_eval_run_id run_id <$> l.
Proof.
  unfold RegressionDetector.stamp.
  enough (H : forall acc,
    foldl (fun done alert => done ++ [set_eval_run_id run_id alert]) acc l
    = acc ++ (set_eval_run_id run_id <$> l)) by apply (H []).
  induction l as [|a l IH]; intros acc; simpl.
  - by rewrite app_nil_r.
  - rewrite IH. by rewrite <- app_assoc.
Qed.

(** The ids drawn by one [check] are consecutive. *)
Lemma check_supply (r : EvalResult) (uuid : nat) :
  snd (RegressionDetector.check config r uuid)
  = (uuid + length (fst (RegressionDetector.check config r uuid)))%nat.
Proof.
  unfold RegressionDetector.check.
  destruct (score_card r) as [card|]; simpl; [|lia].
  repeat match goal with
         | |- context [if ?b then _ else _] => destruct b
         end; simpl; lia.
Qed.

(** The loop over the indices of [results], started after a prefix that
    is already processed, computes the contract on the rest. *)
Lemma batch_loop (todo : list EvalResult) :
  forall (processed : list EvalResult) (acc : list RegressionAlert) (uuid : nat),
    foldl (RegressionDetector.batch_step config run_id)
          (RegressionDetector.mkBatchState (processed ++ todo) acc uuid)
          (seq (length processed) (length todo))
    = let '(todo', all, uuid') := batch_contract config run_id todo uuid in
      RegressionDetector.mkBatchState (processed ++ todo') (acc ++ all) uuid'.
Proof.
  induction todo as [|r todo IH]; intros processed acc uuid; simpl.
  - by rewrite !app_nil_r.
  - unfold RegressionDetector.batch_step at 2. simpl.
    rewrite list_lookup_middle by done.
    destruct (RegressionDetector.check config r uuid) as [found uuid1] eqn:E.
    rewrite stamp_map. simpl.
    rewrite insert_app_r_alt, Nat.sub_diag by done. simpl.
    specialize (IH (processed ++ [set_alerts (set_eval_run_id run_id <$> found) r])
                   (acc ++ (set_eval_run_id run_id <$> found)) uuid1).
    rewrite <- !app_assoc in IH. simpl in IH.
    rewrite length_app in IH. simpl in IH.
    replace (length processed + 1)%nat with (S (length processed)) in IH by lia.
    rewrite IH.
    destruct (batch_contract config run_id todo uuid1) as [[todo' all] uuid'].
    by rewrite <- !app_assoc.
Qed.

Lemma check_batch_contract (results : list EvalResult) (uuid : nat) :
  RegressionDetector.check_batch config results run_id uuid
  = let '(results', all, uuid') := batch_contract config run_id results uuid in
    RegressionDetector.mkBatchState results' all uuid'.
Proof.
  unfold RegressionDetector.check_batch.
  apply (batch_loop results [] [] uuid).
Qed.

Lemma batch_contract_stamped (results : list EvalResult) :
  forall uuid,
    Forall (fun a => eval_run_id a = run_id)
           (snd (fst (batch_contract config run_id results uuid))).
Proof.
  induction results as [|r rest IH]; intros uuid; simpl; [constructor|].
  specialize (IH (snd (RegressionDetector.check config r uuid))).
  destruct (batch_contract config run_id rest _) as [[rest' all] uuid']. simpl in *.
  apply Forall_app. split; [|done].
  apply Forall_fmap. clear. induction (fst _); by constructor.
Qed.

Lemma batch_contract_flat (results : list EvalResult) :
  forall uuid,
    snd (fst (batch_contract config run_id results uuid))
    = concat (alerts <$> fst (fst (batch_contract config run_id results uuid))).
Proof.
  induction results as [|r rest IH]; intros uuid; simpl; [done|].
  specialize (IH (snd (RegressionDetector.check config r uuid))).
  destruct (batch_contract config run_id rest _) as [[rest' all] uuid']. simpl in *.
  by rewrite IH.
Qed.

Lemma batch_contract_length (results : list EvalResult) :
  forall uuid,
    length (fst (fst (batch_contract config run_id results uuid))) = length results.
Proof.
  induction results as [|r rest IH]; intros uuid; simpl; [done|].
  specialize (IH (snd (RegressionDetector.check config r uuid))).
  destruct (batch_contract config run_id rest _) as [[rest' all] uuid']. simpl in *.
  by rewrite IH.
Qed.

(** The [i]-th result receives the stamped alerts of [check] on it, run
    with the id supply advanced by the alerts of the results before it. *)
Lemma batch_contract_lookup (results : list EvalResult) :
  forall uuid i r,
    results !! i = Some r ->
    let results' := fst (fst (batch_contract config run_id results uuid)) in
    let before := length (concat (alerts <$> take i results')) in
    results' !! i
    = Some (set_alerts
              (set_eval_run_id run_id
                 <$> fst (RegressionDetector.check config r (uuid + before)))
              r).
Proof.
  induction results as [|r0 rest IH]; intros uuid i r Hi; [done|].
  simpl.
  pose proof (check_supply r0 uuid) as Hs.
  specialize (IH (snd (RegressionDetector.check config r0 uuid))).
  destruct (batch_contract config run_id rest _) as [[rest' all] uuid']. simpl in *.
  destruct i as [|i]; simpl in *.
  - injection Hi as <-. by rewrite Nat.add_0_r.
  - specialize (IH i r Hi). rewrite IH.
    rewrite length_app, length_fmap, Hs.
    by rewrite Nat.add_assoc.
Qed.

End batch.

(** C9. [check_batch] checks every result in order; every alert it returns
    carries the supplied run id; the returned list is the concatenation of
    the alert lists attached to the results, in result order; the results
    are updated in place, none added or removed, and the [i]-th one is
    the original with its alerts replaced by exactly the alerts of [check]
    on it, in the order of [check], stamped with the run id (the alert ids
    being the ones drawn after those of the results before it). *)
Theorem check_batch_contract_holds
    (config : EvalConfig) (results : list EvalResult) (run_id : string) (uuid : nat) :
  let st := RegressionDetector.check_batch config results run_id uuid in
  Forall (fun a => eval_run_id a = run_id) (RegressionDetector.bs_all_alerts st) /\
  RegressionDetector.bs_all_alerts st
    = concat (alerts <$> RegressionDetector.bs_results st) /\
  length (RegressionDetector.bs_results st) = length results /\
  forall i r,
    results !! i = Some r ->
    let before :=
      length (concat (alerts <$> take i (RegressionDetector.bs_results st))) in
    RegressionDetector.bs_results st !! i
    = Some (set_alerts
              (set_eval_run_id run_id
                 <$> fst (RegressionDetector.check config r (uuid + before)))
              r).
Proof.
  intros st. subst st. rewrite check_batch_contract.
  pose proof (batch_contract_stamped config run_id results uuid) as H1.
  pose proof (batch_contract_flat config run_id results uuid) as H2.
  pose proof (batch_contract_length config run_id results uuid) as H3.
  pose proof (batch_contract_lookup config run_id results uuid) as H4.
  destruct (batch_contract config run_id results uuid) as [[results' all] uuid'].
  simpl in *. auto.
Qed.

(** One result with a cost delta of 50.0, checked in run "run-123". *)
Lemma check_batch_contract_holds_witness :
  RegressionDetector.bs_results
    (RegressionDetector.check_batch default_config
       [scored (card_with (Num.lit 50 1) (Num.lit 8 10))] "run-123" 7) !! 0%nat
  = Some (set_alerts
            (set_eval_run_id "run-123"
               <$> fst (RegressionDetector.check default_config
                          (scored (card_with (Num.lit 50 1) (Num.lit 8 10))) 7))
            (scored (card_with (Num.lit 50 1) (Num.lit 8 10)))).
Proof.
  destruct (check_batch_contract_holds default_config
              [scored (card_with (Num.lit 50 1) (Num.lit 8 10))] "run-123" 7)
    as (_ & _ & _ & H).
  apply (H 0%nat (scored (card_with (Num.lit 50 1) (Num.lit 8 10)))).
  reflexivity.
Defined.

(** ** C3: the summary of a run *)

Lemma filterM_ok {A} (p : A -> result bool) (q : A -> bool) (l : list A) :
  Forall (fun a => p a = Ok (q a)) l ->
  filterM p l = Ok (filter (fun a => q a = true) l).
Proof.
  induction 1 as [|a l Ha _ IH]; simpl; [done|].
  rewrite Ha. simpl. rewrite IH. simpl.
  rewrite filter_cons. destruct (q a); case_decide; done.
Qed.

Lemma completed_have_cards (l : list EvalResult) :
  Forall (fun r => card_weighted_score r
                   = Ok (default (Num.lit 0 1) (weighted_score <$> score_card r)))
         (filter (fun r => has_score_card r = true) l).
Proof.
  induction l as [|r l IH]; [constructor|].
  rewrite filter_cons. case_decide as Hr; [|done].
  constructor; [|done].
  unfold has_score_card, card_weighted_score in *.
  by destruct (score_card r).
Qed.

(** [sum] over results that all have a score card. *)
Lemma sumM_ok {A} (f : A -> result Qc) (g : A -> Qc) (l : list A) :
  Forall (fun a => f a = Ok (g a)) l ->
  sumM f l = Ok (foldl (fun acc a => acc + g a) (Num.lit 0 1) l).
Proof.
  unfold sumM. generalize (Num.lit 0 1).
  induction l as [|a l IH]; intros acc Hall; simpl; [done|].
  apply Forall_cons_1 in Hall as [Ha Hl]. rewrite Ha. simpl. by apply IH.
Qed.

(** The comprehensions over [completed] never meet an absent card. *)
Lemma filterM_completed (test : Qc -> bool) (l : list EvalResult) :
  filterM (fun r => w ← card_weighted_score r; mret (test w))
          (filter (fun r => has_score_card r = true) l)
  = Ok (filter (fun r => test (weighted_of r) = true)
               (filter (fun r => has_score_card r = true) l)).
Proof.
  apply filterM_ok.
  induction (completed_have_cards l) as [|r l' Hr _ IH]; constructor; [|done].
  fold (weighted_of r) in Hr. by rewrite Hr.
Qed.

(** [compute_summary] never raises. *)
Lemma compute_summary_ok (self : EvalRun) :
  exists self', compute_summary self = Ok self'.
Proof.
  unfold compute_summary.
  rewrite !filterM_completed. simpl.
  case_bool_decide as Hnil; simpl; [eauto|].
  rewrite (sumM_ok _ _ _ (completed_have_cards (results self))). simpl.
  rewrite Num_div_ok; [simpl; eauto|].
  apply Num_of_nat_neq0.
  destruct (filter _ (results self)); [done|simpl; lia].
Qed.

Lemma foldl_extend_concat {A B} (f : A -> list B) (l : list A) (acc : list B) :
  foldl (fun acc a => acc ++ f a) acc l = acc ++ concat (f <$> l).
Proof.
  revert acc. induction l as [|a l IH]; intros acc; simpl.
  - by rewrite app_nil_r.
  - rewrite IH. by rewrite <- app_assoc.
Qed.

Lemma foldl_sum {A} (g : A -> Qc) (l : list A) (z : Qc) :
  foldl (fun acc a => acc + g a) z l = z + list_sum (g <$> l).
Proof.
  revert z. induction l as [|a l IH]; intros z.
  - cbn [foldl fmap list_fmap]. rewrite list_sum_nil. ring.
  - cbn [foldl]. rewrite IH, fmap_cons, list_sum_cons. ring.
Qed.

Lemma filter_geb (l : list EvalResult) (t : Qc) :
  filter (fun r => Num.geb (weighted_of r) t = true) l
  = filter (fun r => t <= weighted_of r) l.
Proof.
  apply list_filter_iff. intros r. unfold Num.geb.
  rewrite negb_true_iff. apply Num_ltb_ge.
Qed.

Lemma filter_ltb (l : list EvalResult) (t : Qc) :
  filter (fun r => Num.ltb (weighted_of r) t = true) l
  = filter (fun r => weighted_of r < t) l.
Proof. apply list_filter_iff. intros r. apply Num_ltb_lt. Qed.

(** What [compute_summary] computes, on every run. *)
Lemma compute_summary_spec (self : EvalRun) :
  compute_summary self = Ok (summary_of self).
Proof.
  unfold compute_summary, summary_of.
  rewrite !filterM_completed. cbn [mbind result_bind].
  rewrite filter_geb, filter_ltb, foldl_extend_concat. cbn [app].
  fold (completed_of self).
  case_bool_decide as Hnil.
  - rewrite decide_True by done. reflexivity.
  - rewrite decide_False by done.
    unfold completed_of in *.
    rewrite (sumM_ok _ _ _ (completed_have_cards (results self))).
    cbn [mbind result_bind].
    rewrite Num_div_ok.
    + cbn [mbind result_bind mret result_ret]. rewrite foldl_sum.
      change (Num.lit 0 1) with 0. rewrite Qcplus_0_l. reflexivity.
    + apply Num_of_nat_neq0.
      destruct (filter _ (results self)); [done|simpl; lia].
Qed.

(** X15. A second invocation of [compute_summary] changes nothing: the
    summary it leaves is a fixed point. *)
Lemma compute_summary_idempotent (self self' : EvalRun) :
  compute_summary self = Ok self' -> compute_summary self' = Ok self'.
Proof.
  rewrite !compute_summary_spec. intros [= <-]. f_equal.
  unfold summary_of, completed_of. cbn [results run_id config run_status].
  f_equal. cbn [avg_weighted_score]. by case_decide.
Qed.

(** A run with the weighted scores 0.9 and 0.3: total 2, passed 1,
    failed 1, average 0.6. *)
Example compute_summary_two_results :
  exists self',
    compute_summary
      (mkEvalRun "run-1" default_config RUNNING
         [scored (card_with (Num.lit 0 1) (Num.lit 9 10));
          scored (card_with (Num.lit 0 1) (Num.lit 3 10))] [] 0 0 0 (Num.lit 0 1))
    = Ok self' /\
    total_episodes self' = 2%nat /\ passed self' = 1%nat /\ failed self' = 1%nat /\
    avg_weighted_score self' = Num.lit 6 10.
Proof.
  eexists. split; [apply compute_summary_spec|].
  repeat split; try reflexivity.
  apply Qc_is_canon. vm_compute. reflexivity.
Qed.

(** C3. On a run that carries an average from before and has no scored
    result, [compute_summary] leaves the old average in place instead of
    setting it to 0.0: the average is not recomputed from scratch. *)
Theorem compute_summary_stale_average :
  Forall (fun r => score_card r = None) (results stale_run) /\
  exists self',
    compute_summary stale_run = Ok self' /\
    avg_weighted_score self' = Num.lit 9 10 /\
    avg_weighted_score self' <> Num.lit 0 1.
Proof.
  split; [repeat constructor|].
  eexists. split; [reflexivity|]. split; [reflexivity|].
  intros E. apply Q2Qc_eq_iff in E. discriminate E.
Qed.

(** ** The weighted score over exact numbers *)

(** Order facts on [Qc] are turned into facts on [Q] and left to [lra]. *)
Ltac qc_unfold :=
  unfold Qcle, Qclt, Qcdiv, Qcminus, Qcplus, Qcmult, Qcopp, Qcinv,
    Num.lit, Num.of_Z, Q2Qc in *;
  cbn [this] in *;
  repeat rewrite Qred_correct in *;
  cbn [Qinv Qnum Qden] in *.

Lemma lit_neq0 (n : Z) (d : positive) : n <> 0%Z -> Num.lit n d <> 0.
Proof.
  intros Hn E. apply Q2Qc_eq_iff in E. unfold Qeq in E. simpl in E. lia.
Qed.

Lemma Num_abs_nonneg (x : Qc) : 0 <= Num.abs x.
Proof.
  unfold Num.abs. destruct (Num.ltb x 0) eqn:E.
  - apply Num_ltb_lt in E. qc_unfold. lra.
  - by apply Num_ltb_ge in E.
Qed.

Lemma Num_max_ge_l (a b : Qc) : a <= Num.max a b.
Proof.
  unfold Num.max, Num.gtb. destruct (Num.ltb a b) eqn:E.
  - apply Num_ltb_lt in E. by apply Qclt_le_weak.
  - apply Qcle_refl.
Qed.

Lemma dimension_of_name_name (d : ScoreDimension) :
  dimension_of_name (dimension_name d) = Some d.
Proof. by destruct d. Qed.

Section weighted.

Variable inherited_attr : string -> option PyValue.
Variable card : ScoreCard.

(** One iteration of the loop, at a key that names a dimension. *)
Lemma weighted_step_dimension (total : Qc) (d : ScoreDimension) (w : Qc) :
  weighted_step inherited_attr card total (dimension_name d, w)
  = Ok (total + contribution card d * w).
Proof.
  destruct d; unfold weighted_step; simpl; try done;
    rewrite Num_div_ok by (by apply lit_neq0); done.
Qed.

Lemma weighted_loop (l : list (string * Qc)) :
  forall total,
    Forall (fun item => exists d, fst item = dimension_name d) l ->
    foldlM (weighted_step inherited_attr card) l total
    = Ok (total + list_sum (weighted_term card <$> l)).
Proof.
  induction l as [|[k w] l IH]; intros total Hl.
  - cbn [foldlM fmap list_fmap]. rewrite list_sum_nil. f_equal. ring.
  - apply Forall_cons_1 in Hl as [[d Hd] Hl]. cbn [fst] in Hd. subst k.
    cbn [foldlM]. rewrite weighted_step_dimension.
    cbn [mbind result_bind]. rewrite IH by done.
    rewrite fmap_cons, list_sum_cons. unfold weighted_term at 2. cbn [fst snd].
    rewrite dimension_of_name_name. f_equal. ring.
Qed.

Lemma list_sum_perm (l1 l2 : list Qc) : l1 ≡ₚ l2 -> list_sum l1 = list_sum l2.
Proof.
  unfold list_sum.
  induction 1 as [|x l1 l2 _ IH|x y l|l1 l2 l3 _ IH1 _ IH2]; simpl.
  - done.
  - by rewrite IH.
  - ring.
  - by rewrite IH1.
Qed.

(** Adding a fresh dimension to the map adds its term to the sum. *)
Lemma weighted_sum_insert (m : gmap string Qc) (d : ScoreDimension) (w : Qc) :
  m !! dimension_name d = None ->
  weighted_sum card (<[dimension_name d := w]> m)
  = contribution card d * w + weighted_sum card m.
Proof.
  intros Hnone. unfold weighted_sum, all_dimensions.
  cbn [fmap list_fmap foldr]. change (Num.lit 0 1) with 0.
  destruct d; cbn [dimension_name] in *;
    rewrite lookup_insert_eq, !lookup_insert_ne, Hnone by done; ring.
Qed.

Lemma over_dimensions_insert (m : gmap string Qc) (k : string) (w : Qc) :
  m !! k = None -> over_dimensions (<[k := w]> m) ->
  (exists d, k = dimension_name d) /\ over_dimensions m.
Proof.
  intros Hnone Hm. split.
  - apply (Hm k w). by rewrite lookup_insert_eq.
  - intros k' w' Hk'. apply (Hm k' w').
    rewrite lookup_insert_ne; [done|]. congruence.
Qed.

(** The terms of the entries add up to the sum over the dimensions. *)
Lemma items_sum (m : gmap string Qc) :
  over_dimensions m ->
  list_sum (weighted_term card <$> map_to_list m) = weighted_sum card m.
Proof.
  induction m as [|k w m Hnone IH] using map_ind; intros Hm.
  - rewrite map_to_list_empty. unfold weighted_sum, all_dimensions.
    cbn [fmap list_fmap foldr]. rewrite !lookup_empty, list_sum_nil.
    change (Num.lit 0 1) with 0. ring.
  - apply over_dimensions_insert in Hm as [[d ->] Hm]; [|done].
    rewrite (list_sum_perm _ (weighted_term card <$>
               (dimension_name d, w) :: map_to_list m)).
    2: { apply fmap_Permutation, map_to_list_insert. done. }
    rewrite weighted_sum_insert by done. rewrite <- IH by done.
    rewrite fmap_cons, list_sum_cons. unfold weighted_term at 1. cbn [fst snd].
    by rewrite dimension_of_name_name.
Qed.

Lemma items_over_dimensions (m : gmap string Qc) :
  over_dimensions m ->
  Forall (fun item => exists d, fst item = dimension_name d) (map_to_list m).
Proof.
  intros Hm. apply list.Forall_forall. intros [k w] Hkw.
  apply elem_of_map_to_list in Hkw. by apply (Hm k w).
Qed.

Lemma compute_weighted_sum (weights : gmap string Qc) :
  over_dimensions weights ->
  compute_weighted inherited_attr card weights
  = Ok (set_weighted_score (Num.round (weighted_sum card weights) 4) card,
        Num.round (weighted_sum card weights) 4).
Proof.
  intros Hw. unfold compute_weighted.
  rewrite weighted_loop by (by apply items_over_dimensions).
  simpl. rewrite items_sum by done.
  replace (0 + weighted_sum card weights) with (weighted_sum card weights) by ring.
  done.
Qed.

End weighted.

(** The keys of the default weight map are the five dimensions. *)
Lemma default_weights_over_dimensions : over_dimensions default_score_weights.
Proof.
  intros k w H. unfold default_score_weights in H.
  repeat (apply lookup_insert_Some in H as [[<- _]|[_ H]];
          [match goal with
           | |- exists d, ?s = _ =>
             first [ by exists CORRECTNESS | by exists COST_DELTA
                   | by exists LATENCY_DELTA | by exists TOOL_MATCH
                   | by exists SAFETY ]
           end|]).
  by rewrite lookup_empty in H.
Qed.

(** ** Tool match over exact numbers *)

(** The indexed loop counts the positions at which the lists agree; the
    prefixes are the parts of the lists already visited. *)
Lemma py_index_middle {A} (l1 l2 : list A) (x : A) :
  py_index (l1 ++ x :: l2) (length l1) = Ok x.
Proof. unfold py_index. by rewrite list_lookup_middle. Qed.

Lemma count_matches_loop (current : list string) :
  forall (baseline p1 p2 : list string) (acc : nat),
    length p1 = length p2 ->
    foldlM (fun acc i =>
              c ← py_index (p1 ++ current) i;
              b ← py_index (p2 ++ baseline) i;
              mret (if String.eqb c b then acc + 1 else acc)%nat)
           (seq (length p1) (Nat.min (length current) (length baseline))) acc
    = Ok (acc + position_matches current baseline)%nat.
Proof.
  induction current as [|c current IH]; intros baseline p1 p2 acc Hlen.
  - simpl. f_equal. unfold position_matches. simpl. lia.
  - destruct baseline as [|b baseline].
    + simpl. f_equal. unfold position_matches. simpl. lia.
    + cbn [length Nat.min seq foldlM].
      rewrite py_index_middle. cbn [mbind result_bind].
      rewrite Hlen, py_index_middle, <- Hlen.
      cbn [mbind result_bind mret result_ret].
      specialize (IH baseline (p1 ++ [c]) (p2 ++ [b])).
      rewrite <- !app_assoc in IH. cbn [app] in IH.
      rewrite !length_app in IH. cbn [length] in IH.
      replace (length p1 + 1)%nat with (S (length p1)) in IH by lia.
      rewrite IH by lia. f_equal.
      unfold position_matches. cbn [zip zip_with]. rewrite filter_cons. cbn [fst snd].
      destruct (String.eqb_spec c b); case_decide; try done; simpl; lia.
Qed.

Lemma count_matches_ok (current baseline : list string) :
  ScoringEngine.count_matches current baseline
    (Nat.min (length current) (length baseline))
  = Ok (position_matches current baseline).
Proof.
  unfold ScoringEngine.count_matches.
  apply (count_matches_loop current baseline [] [] 0%nat). done.
Qed.

Lemma union_size_pos (current baseline : list string) :
  current <> [] ->
  (0 < size ((list_to_set current : gset string) ∪ list_to_set baseline))%nat.
Proof.
  intros Hc. destruct current as [|c current]; [done|].
  apply Nat.neq_0_lt_0. intros H0. apply size_empty_inv in H0.
  assert (c ∈ (list_to_set (c :: current) : gset string) ∪ list_to_set baseline)
    as Hin by set_solver.
  rewrite H0 in Hin. set_solver.
Qed.

Lemma bool_decide_nil {A} (l : list A) {dec : Decision (l = [])} :
  l <> [] -> @bool_decide (l = []) dec = false.
Proof. intros H. by apply bool_decide_eq_false. Qed.

(** [_score_tool_match] on two non-empty tool lists. *)
Lemma tool_match_blend (current baseline : Episode) :
  tools_of current <> [] -> tools_of baseline <> [] ->
  ScoringEngine._score_tool_match current baseline
  = Ok (Num.round (jaccard (tools_of current) (tools_of baseline) * Num.lit 6 10
                   + position_ratio (tools_of current) (tools_of baseline)
                     * Num.lit 4 10) 4).
Proof.
  intros Hc Hb. unfold ScoringEngine._score_tool_match.
  fold (tools_of current) (tools_of baseline).
  rewrite !bool_decide_nil by done. cbn [andb orb].
  pose proof (union_size_pos (tools_of current) (tools_of baseline) Hc) as Hu.
  apply Nat.ltb_lt in Hu as Hu'. rewrite Hu'.
  rewrite Num_div_ok by (apply Num_of_nat_neq0; done).
  cbn [mbind result_bind].
  assert (0 < Nat.min (length (tools_of current)) (length (tools_of baseline)))%nat
    as Hm.
  { destruct (tools_of current), (tools_of baseline); simpl; try done; lia. }
  apply Nat.ltb_lt in Hm as Hm'. rewrite Hm'.
  rewrite count_matches_ok. cbn [mbind result_bind].
  rewrite Num_div_ok by (apply Num_of_nat_neq0; done).
  done.
Qed.

(** ** Safety over exact numbers *)

Lemma of_nat_nonneg (n : nat) : 0 <= Num.of_nat n.
Proof.
  unfold Num.of_nat. qc_unfold. unfold Qle. simpl. lia.
Qed.

Lemma is_error_step_spec (s : Step) :
  ScoringEngine.is_error_step s = true <-> step_type s = Some "error".
Proof.
  unfold ScoringEngine.is_error_step, opt_str_eqb.
  destruct (step_type s) as [k|]; [|split; discriminate].
  destruct (String.eqb_spec k "error"); split; congruence.
Qed.

Lemma error_steps_count (l : list Step) :
  length (filter (fun s => ScoringEngine.is_error_step s = true) l)
  = length (filter (fun s => step_type s = Some "error") l).
Proof.
  induction l as [|s l IH]; [done|].
  rewrite !filter_cons.
  pose proof (is_error_step_spec s) as Hs.
  repeat case_decide; simpl; try rewrite IH; try done; tauto.
Qed.

Lemma safety_round (e : Episode) :
  steps_of e <> [] ->
  ScoringEngine._score_safety e
  = Ok (Num.round (Num.lit 1 1
                   - Num.of_nat (error_count e) / Num.of_nat (length (steps_of e))) 4).
Proof.
  intros Hs. unfold ScoringEngine._score_safety. fold (steps_of e).
  rewrite bool_decide_nil by done.
  rewrite Num_div_ok.
  - cbn [mbind result_bind]. unfold error_count. by rewrite error_steps_count.
  - apply Num_of_nat_neq0. destruct (steps_of e); [done|simpl; lia].
Qed.

Lemma safety_empty (e : Episode) :
  steps_of e = [] -> ScoringEngine._score_safety e = Ok (Num.lit 1 1).
Proof.
  intros Hs. unfold ScoringEngine._score_safety. fold (steps_of e). by rewrite Hs.
Qed.



(** * Further properties of the code *)

(** ** Rounding *)

(** The last digit kept by [round] lies between any two integers that
    bracket the scaled value. *)
Lemma round_units (x : Qc) (n : nat) :
  exists m : Z,
    Num.round x n = Q2Qc (m # Z.to_pos (Num.pow10 n)) /\
    (forall a : Z, Num.of_Z a <= x * Num.of_Z (Num.pow10 n) -> (a <= m)%Z) /\
    (forall b : Z, x * Num.of_Z (Num.pow10 n) <= Num.of_Z b -> (m <= b)%Z).
Proof.
  unfold Num.round.
  generalize (x * Num.of_Z (Num.pow10 n)). intros y.
  pose proof (Qfloor_le (this y)) as Hlo.
  pose proof (Qlt_floor (this y)) as Hhi.
  rewrite inject_Z_plus in Hhi.
  generalize dependent (Qfloor (this y)). intros f Hlo Hhi.
  eexists. split; [reflexivity|].
  assert (Hr : match y - Num.of_Z f ?= Num.lit 1 2 with
               | Lt => True
               | _ => (inject_Z f < this y)%Q
               end).
  { destruct (y - Num.of_Z f ?= Num.lit 1 2) eqn:E; [| done |].
    - apply Qceq_alt in E.
      assert (y = Num.lit 1 2 + Num.of_Z f) as -> by (rewrite <- E; ring).
      qc_unfold. lra.
    - apply Qcgt_alt in E. qc_unfold. lra. }
  split.
  - intros a Ha.
    assert (inject_Z a <= this y)%Q as Ha' by (clear -Ha; qc_unfold; done).
    assert (inject_Z a < inject_Z f + inject_Z 1)%Q as Hlt by lra.
    rewrite <- inject_Z_plus, <- Zlt_Qlt in Hlt.
    destruct (y - Num.of_Z f ?= Num.lit 1 2); [destruct (Z.even f)| |]; lia.
  - intros b Hb.
    assert (this y <= inject_Z b)%Q as Hb' by (clear -Hb; qc_unfold; done).
    assert (inject_Z f <= inject_Z b)%Q as Hle by lra.
    rewrite <- Zle_Qle in Hle.
    destruct (y - Num.of_Z f ?= Num.lit 1 2); [destruct (Z.even f)| |]; try lia.
    + assert (inject_Z f < inject_Z b)%Q as Hlt by lra.
      rewrite <- Zlt_Qlt in Hlt. lia.
    + assert (inject_Z f < inject_Z b)%Q as Hlt by lra.
      rewrite <- Zlt_Qlt in Hlt. lia.
Qed.

Lemma pow10_pos (n : nat) : (0 < Num.pow10 n)%Z.
Proof. unfold Num.pow10. apply Z.pow_pos_nonneg; lia. Qed.

Lemma of_Z_le (a b : Z) : (a <= b)%Z -> Num.of_Z a <= Num.of_Z b.
Proof. intros H. qc_unfold. by rewrite <- Zle_Qle. Qed.


Lemma scaled_nonneg (x : Qc) (n : nat) :
  0 <= x -> Num.of_Z 0 <= x * Num.of_Z (Num.pow10 n).
Proof.
  intros Hx.
  assert (0 * Num.of_Z (Num.pow10 n) <= x * Num.of_Z (Num.pow10 n)) as H.
  { apply Qcmult_le_compat_r; [done|].
    change 0 with (Num.of_Z 0). apply of_Z_le. pose proof (pow10_pos n). lia. }
  by rewrite Qcmult_0_l in H.
Qed.

Lemma scaled_le_one (x : Qc) (n : nat) :
  x <= 1 -> x * Num.of_Z (Num.pow10 n) <= Num.of_Z (Num.pow10 n).
Proof.
  intros Hx.
  assert (x * Num.of_Z (Num.pow10 n) <= 1 * Num.of_Z (Num.pow10 n)) as H.
  { apply Qcmult_le_compat_r; [done|].
    change 0 with (Num.of_Z 0). apply of_Z_le. pose proof (pow10_pos n). lia. }
  by rewrite Qcmult_1_l in H.
Qed.


Lemma units_nonneg (m : Z) (p : positive) : (0 <= m)%Z -> 0 <= Q2Qc (m # p).
Proof.
  intros H. unfold Qcle. cbn [this Q2Qc]. rewrite !Qred_correct.
  unfold Qle. simpl. lia.
Qed.


Lemma units_le_one (m : Z) (n : nat) :
  (m <= Num.pow10 n)%Z -> Q2Qc (m # Z.to_pos (Num.pow10 n)) <= 1.
Proof.
  intros H. unfold Qcle. cbn [this Q2Qc]. rewrite !Qred_correct.
  unfold Qle. cbn [Qnum Qden]. pose proof (pow10_pos n).
  rewrite Z2Pos.id by done. lia.
Qed.

(** Rounding keeps a value on its side of zero, and inside [0, 1]. *)
Lemma round_nonneg (x : Qc) (n : nat) : 0 <= x -> 0 <= Num.round x n.
Proof.
  intros Hx. destruct (round_units x n) as (m & -> & Hlo & _).
  apply units_nonneg, Hlo. by apply scaled_nonneg.
Qed.


Lemma round_le_one (x : Qc) (n : nat) : x <= 1 -> Num.round x n <= 1.
Proof.
  intros Hx. destruct (round_units x n) as (m & -> & _ & Hhi).
  apply units_le_one, Hhi. by apply scaled_le_one.
Qed.

Lemma of_nat_le (a b : nat) : (a <= b)%nat -> Num.of_nat a <= Num.of_nat b.
Proof. intros H. apply of_Z_le. lia. Qed.

Lemma of_nat_pos (n : nat) : (0 < n)%nat -> 0 < Num.of_nat n.
Proof.
  intros H. unfold Num.of_nat. qc_unfold. change 0%Q with (inject_Z 0).
  rewrite <- Zlt_Qlt. lia.
Qed.

(** A quotient of counts [a/b] with [a <= b] lies in [0, 1]. *)
Lemma ratio_unit (a b : nat) :
  (a <= b)%nat -> (0 < b)%nat ->
  0 <= Num.of_nat a / Num.of_nat b /\ Num.of_nat a / Num.of_nat b <= 1.
Proof.
  intros Hab Hb.
  pose proof (of_nat_le a b Hab) as Hle.
  pose proof (of_nat_pos b Hb) as Hpos.
  pose proof (of_nat_nonneg a) as Ha.
  revert Hle Hpos Ha. generalize (Num.of_nat a) (Num.of_nat b). intros x y Hle Hpos Ha.
  qc_unfold. split.
  - apply Qle_shift_div_l; [done|]. lra.
  - apply Qle_shift_div_r; [done|]. lra.
Qed.

Lemma blend_70_30 (a b : Qc) :
  0 <= a -> a <= 1 -> 0 <= b -> b <= 1 ->
  0 <= a * Num.lit 7 10 + b * Num.lit 3 10 /\ a * Num.lit 7 10 + b * Num.lit 3 10 <= 1.
Proof. intros. qc_unfold. split; lra. Qed.

Lemma blend_60_40 (a b : Qc) :
  0 <= a -> a <= 1 -> 0 <= b -> b <= 1 ->
  0 <= a * Num.lit 6 10 + b * Num.lit 4 10 /\ a * Num.lit 6 10 + b * Num.lit 4 10 <= 1.
Proof. intros. qc_unfold. split; lra. Qed.

Lemma correctness_range (current baseline : Episode) :
  exists v, ScoringEngine._score_correctness current baseline = Ok v /\
            0 <= v /\ v <= 1.
Proof.
  unfold ScoringEngine._score_correctness.
  set (base := if String.eqb _ _ then Num.lit 1 1
               else if String.eqb _ "success" then Num.lit 8 10 else Num.lit 0 1).
  assert (0 <= base /\ base <= 1) as [Hb0 Hb1].
  { subst base. destruct (String.eqb _ _); [|destruct (String.eqb _ _)];
      qc_unfold; split; lra. }
  clearbody base.
  set (n1 := length (default [] (ep_steps current))).
  set (n2 := length (default [] (ep_steps baseline))).
  destruct (Nat.ltb 0 n1) eqn:E1; destruct (Nat.ltb 0 n2) eqn:E2;
    cbn [andb mbind result_bind mret result_ret];
    try (eexists; split; [reflexivity|];
         split; [by apply round_nonneg | by apply round_le_one]).
  apply Nat.ltb_lt in E1, E2.
  rewrite Num_div_ok by (apply Num_of_nat_neq0; lia).
  cbn [mbind result_bind mret result_ret].
  destruct (ratio_unit (Nat.min n1 n2) (Nat.max n1 n2)) as [Hr0 Hr1]; [lia|lia|].
  destruct (blend_70_30 base _ Hb0 Hb1 Hr0 Hr1) as [H0 H1].
  eexists. split; [reflexivity|].
  split; [by apply round_nonneg | by apply round_le_one].
Qed.

Lemma jaccard_unit (current baseline : list string) :
  current <> [] ->
  0 <= jaccard current baseline /\ jaccard current baseline <= 1.
Proof.
  intros Hc. unfold jaccard. apply ratio_unit.
  - apply subseteq_size. set_solver.
  - by apply union_size_pos.
Qed.

Lemma position_matches_le (current baseline : list string) :
  (position_matches current baseline
   <= Nat.min (length current) (length baseline))%nat.
Proof.
  unfold position_matches.
  etransitivity; [apply length_filter|].
  by rewrite length_zip.
Qed.

Lemma tool_match_range (current baseline : Episode) :
  exists v, ScoringEngine._score_tool_match current baseline = Ok v /\
            0 <= v /\ v <= 1.
Proof.
  destruct (decide (tools_of current = [])) as [Hc|Hc];
    destruct (decide (tools_of baseline = [])) as [Hb|Hb].
  - exists (Num.lit 1 1). split; [|by split].
    unfold ScoringEngine._score_tool_match.
    fold (tools_of current) (tools_of baseline). by rewrite Hc, Hb.
  - exists (Num.lit 0 1). split; [|by split].
    unfold ScoringEngine._score_tool_match.
    fold (tools_of current) (tools_of baseline).
    by rewrite Hc, (bool_decide_nil _ Hb).
  - exists (Num.lit 0 1). split; [|by split].
    unfold ScoringEngine._score_tool_match.
    fold (tools_of current) (tools_of baseline).
    by rewrite Hb, (bool_decide_nil _ Hc).
  - rewrite tool_match_blend by done.
    destruct (jaccard_unit (tools_of current) (tools_of baseline) Hc) as [Hj0 Hj1].
    destruct (ratio_unit (position_matches (tools_of current) (tools_of baseline))
                (Nat.min (length (tools_of current)) (length (tools_of baseline))))
      as [Hp0 Hp1].
    { apply position_matches_le. }
    { destruct (tools_of current), (tools_of baseline); simpl; try done; lia. }
    fold (position_ratio (tools_of current) (tools_of baseline)) in Hp0, Hp1.
    destruct (blend_60_40 _ _ Hj0 Hj1 Hp0 Hp1) as [H0 H1].
    eexists. split; [reflexivity|].
    split; [by apply round_nonneg | by apply round_le_one].
Qed.

Lemma safety_range (episode : Episode) :
  exists v, ScoringEngine._score_safety episode = Ok v /\ 0 <= v /\ v <= 1.
Proof.
  destruct (decide (steps_of episode = [])) as [Hs|Hs].
  - rewrite safety_empty by done. exists (Num.lit 1 1). by repeat split.
  - rewrite safety_round by done.
    destruct (ratio_unit (error_count episode) (length (steps_of episode)))
      as [Hr0 Hr1].
    { apply length_filter. }
    { destruct (steps_of episode); [done|simpl; lia]. }
    eexists. split; [reflexivity|].
    split; [apply round_nonneg | apply round_le_one];
      revert Hr0 Hr1; generalize (Num.of_nat (error_count episode)
                                  / Num.of_nat (length (steps_of episode)));
      intros r Hr0 Hr1; qc_unfold; lra.
Qed.









Lemma weighted_sum_ignores_weighted_score (card : ScoreCard) (v : Qc)
    (weights : gmap string Qc) :
  weighted_sum (set_weighted_score v card) weights = weighted_sum card weights.
Proof. reflexivity. Qed.

(** X5. Over dimension names, a second [compute_weighted] with the same
    weights leaves the card and the returned value as they are: the
    weighted score is not fed back into itself. *)
Theorem compute_weighted_idempotent (inherited_attr : string -> option PyValue)
    (card card' : ScoreCard) (weights : gmap string Qc) (v : Qc) :
  over_dimensions weights ->
  compute_weighted inherited_attr card weights = Ok (card', v) ->
  compute_weighted inherited_attr card' weights = Ok (card', v).
Proof.
  intros Hw. rewrite !compute_weighted_sum by done.
  intros [= <- <-]. by rewrite weighted_sum_ignores_weighted_score.
Qed.

Lemma delta_goodness_unit (delta : Qc) :
  0 <= delta_goodness delta /\ delta_goodness delta <= 1.
Proof.
  split; [apply Num_max_ge_l|].
  unfold delta_goodness, Num.max, Num.gtb.
  pose proof (Num_abs_nonneg delta) as Ha. revert Ha.
  generalize (Num.abs delta). intros a Ha.
  destruct (Num.ltb _ _); qc_unfold; lra.
Qed.

Lemma contribution_unit (card : ScoreCard) (d : ScoreDimension) :
  0 <= correctness card /\ correctness card <= 1 ->
  0 <= tool_match card /\ tool_match card <= 1 ->
  0 <= safety card /\ safety card <= 1 ->
  0 <= contribution card d /\ contribution card d <= 1.
Proof.
  intros Hc Ht Hs. destruct d; cbn [contribution]; try done;
    apply delta_goodness_unit.
Qed.

Lemma weighted_term_bounds (c w : Qc) :
  0 <= c -> c <= 1 -> 0 <= w -> 0 <= c * w /\ c * w <= w.
Proof.
  intros Hc0 Hc1 Hw. split.
  - rewrite <- (Qcmult_0_l w). by apply Qcmult_le_compat_r.
  - rewrite <- (Qcmult_1_l w) at 2. by apply Qcmult_le_compat_r.
Qed.

Lemma dimension_term_bounds (card : ScoreCard) (weights : gmap string Qc)
    (d : ScoreDimension) :
  (forall k w, weights !! k = Some w -> 0 <= w) ->
  0 <= contribution card d /\ contribution card d <= 1 ->
  0 <= match weights !! dimension_name d with
       | Some w => contribution card d * w
       | None => Num.lit 0 1
       end
  /\ match weights !! dimension_name d with
     | Some w => contribution card d * w
     | None => Num.lit 0 1
     end <= default (Num.lit 0 1) (weights !! dimension_name d).
Proof.
  intros Hw [H0 H1]. destruct (weights !! dimension_name d) as [w|] eqn:E.
  - apply weighted_term_bounds; try done. by apply (Hw _ _ E).
  - by split.
Qed.

Lemma weighted_sum_unit (card : ScoreCard) (weights : gmap string Qc) :
  (forall k w, weights !! k = Some w -> 0 <= w) ->
  total_weight weights <= 1 ->
  0 <= correctness card /\ correctness card <= 1 ->
  0 <= tool_match card /\ tool_match card <= 1 ->
  0 <= safety card /\ safety card <= 1 ->
  0 <= weighted_sum card weights /\ weighted_sum card weights <= 1.
Proof.
  intros Hw Ht Hc Htm Hs.
  pose proof (fun d => dimension_term_bounds card weights d Hw
                         (contribution_unit card d Hc Htm Hs)) as Hd.
  pose proof (Hd CORRECTNESS) as [A0 A1]. pose proof (Hd COST_DELTA) as [B0 B1].
  pose proof (Hd LATENCY_DELTA) as [C0 C1]. pose proof (Hd TOOL_MATCH) as [D0 D1].
  pose proof (Hd SAFETY) as [E0 E1]. clear Hd.
  unfold weighted_sum, total_weight, list_sum, all_dimensions in *.
  cbn [fmap list_fmap foldr] in *.
  revert Ht A0 A1 B0 B1 C0 C1 D0 D1 E0 E1.
  generalize (default (Num.lit 0 1) (weights !! dimension_name CORRECTNESS)).
  generalize (default (Num.lit 0 1) (weights !! dimension_name COST_DELTA)).
  generalize (default (Num.lit 0 1) (weights !! dimension_name LATENCY_DELTA)).
  generalize (default (Num.lit 0 1) (weights !! dimension_name TOOL_MATCH)).
  generalize (default (Num.lit 0 1) (weights !! dimension_name SAFETY)).
  generalize (match weights !! dimension_name CORRECTNESS with
              | Some w => contribution card CORRECTNESS * w | None => Num.lit 0 1 end).
  generalize (match weights !! dimension_name COST_DELTA with
              | Some w => contribution card COST_DELTA * w | None => Num.lit 0 1 end).
  generalize (match weights !! dimension_name LATENCY_DELTA with
              | Some w => contribution card LATENCY_DELTA * w | None => Num.lit 0 1 end).
  generalize (match weights !! dimension_name TOOL_MATCH with
              | Some w => contribution card TOOL_MATCH * w | None => Num.lit 0 1 end).
  generalize (match weights !! dimension_name SAFETY with
              | Some w => contribution card SAFETY * w | None => Num.lit 0 1 end).
  intros. qc_unfold. split; lra.
Qed.

(** X6. With non-negative weights over the dimensions that add up to at
    most 1 and correctness, tool match and safety in [0, 1], the weighted
    score lies in [0, 1], whatever the two deltas are. *)
Theorem weighted_score_unit (inherited_attr : string -> option PyValue)
    (card : ScoreCard) (weights : gmap string Qc) :
  over_dimensions weights ->
  (forall k w, weights !! k = Some w -> 0 <= w) ->
  total_weight weights <= 1 ->
  0 <= correctness card /\ correctness card <= 1 ->
  0 <= tool_match card /\ tool_match card <= 1 ->
  0 <= safety card /\ safety card <= 1 ->
  exists card',
    compute_weighted inherited_attr card weights = Ok (card', weighted_score card') /\
    0 <= weighted_score card' /\ weighted_score card' <= 1.
Proof.
  intros Hd Hw Ht Hc Htm Hs.
  destruct (weighted_sum_unit card weights Hw Ht Hc Htm Hs) as [H0 H1].
  exists (set_weighted_score (Num.round (weighted_sum card weights) 4) card).
  split; [by apply compute_weighted_sum|].
  cbn [weighted_score set_weighted_score].
  split; [by apply round_nonneg | by apply round_le_one].
Qed.

Lemma position_matches_sym (a : list string) :
  forall b, position_matches a b = position_matches b a.
Proof.
  unfold position_matches.
  induction a as [|x a IH]; intros [|y b]; try done.
  cbn [zip zip_with]. rewrite !filter_cons. cbn [fst snd].
  repeat case_decide; simpl; try congruence; by rewrite IH.
Qed.

Lemma jaccard_sym (a b : list string) : jaccard a b = jaccard b a.
Proof.
  unfold jaccard.
  rewrite (comm_L (∩) (list_to_set a : gset string)).
  by rewrite (comm_L (∪) (list_to_set a : gset string)).
Qed.

(** X3. Tool match does not depend on which episode is the baseline: the
    two episodes can be swapped. *)
Theorem tool_match_symmetric (e1 e2 : Episode) :
  ScoringEngine._score_tool_match e1 e2 = ScoringEngine._score_tool_match e2 e1.
Proof.
  destruct (decide (tools_of e1 = [])) as [H1|H1];
    destruct (decide (tools_of e2 = [])) as [H2|H2].
  - unfold ScoringEngine._score_tool_match.
    fold (tools_of e1) (tools_of e2). by rewrite H1, H2.
  - unfold ScoringEngine._score_tool_match.
    fold (tools_of e1) (tools_of e2). by rewrite H1, (bool_decide_nil _ H2).
  - unfold ScoringEngine._score_tool_match.
    fold (tools_of e1) (tools_of e2). by rewrite H2, (bool_decide_nil _ H1).
  - rewrite !tool_match_blend by done.
    unfold position_ratio.
    by rewrite jaccard_sym, position_matches_sym, Nat.min_comm.
Qed.





Lemma threshold_partition (l : list EvalResult) (t : Qc) :
  (length (filter (fun r => (t <= weighted_of r)%Qc) l)
   + length (filter (fun r => (weighted_of r < t)%Qc) l))%nat = length l.
Proof.
  induction l as [|r l IH]; [done|].
  rewrite !filter_cons.
  destruct (Qclt_le_dec (weighted_of r) t) as [Hlt|Hle].
  - rewrite decide_False by (by apply Qclt_not_le).
    rewrite decide_True by done. simpl. lia.
  - rewrite decide_True by done.
    rewrite decide_False by (by apply Qcle_not_lt). simpl. lia.
Qed.


Section rerun.

Variable config : EvalConfig.
Variable run_id : string.

Lemma batch_contract_rerun (results : list EvalResult) :
  forall uuid,
    batch_contract config run_id
      (fst (fst (batch_contract config run_id results uuid))) uuid
    = batch_contract config run_id results uuid.
Proof.
  induction results as [|r rest IH]; intros uuid; [done|].
  cbn [batch_contract].
  specialize (IH (snd (RegressionDetector.check config r uuid))).
  destruct (batch_contract config run_id rest
              (snd (RegressionDetector.check config r uuid)))
    as [[rest' all] uuid'] eqn:E.
  cbn [fst snd] in *. cbn [batch_contract].
  change (RegressionDetector.check config
            (set_alerts (set_eval_run_id run_id
                           <$> fst (RegressionDetector.check config r uuid)) r) uuid)
    with (RegressionDetector.check config r uuid).
  rewrite IH. reflexivity.
Qed.

End rerun.

(** X9. Checking a batch a second time, from the same id supply, gives
    the same results and the same alerts: alerts are replaced on the
    results, not accumulated. *)
Theorem check_batch_rerun (config : EvalConfig) (results : list EvalResult)
    (run_id : string) (uuid : nat) :
  let st := RegressionDetector.check_batch config results run_id uuid in
  RegressionDetector.check_batch config (RegressionDetector.bs_results st) run_id uuid
  = st.
Proof.
  intros st. subst st. rewrite !check_batch_contract.
  pose proof (batch_contract_rerun config run_id results uuid) as H.
  destruct (batch_contract config run_id results uuid) as [[results' all] uuid'].
  cbn [fst snd RegressionDetector.bs_results] in *. by rewrite H.
Qed.

Lemma foldl_append_map {A B} (f : A -> B) (l : list A) (acc : list B) :
  foldl (fun acc a => acc ++ [f a]) acc l = acc ++ (f <$> l).
Proof.
  revert acc. induction l as [|a l IH]; intros acc; simpl.
  - by rewrite app_nil_r.
  - rewrite IH. by rewrite <- app_assoc.
Qed.

(** What the batch check does to each result: only its alerts change, and
    they are the stamped alerts of [check] on it. *)
Lemma batch_contract_pointwise (config : EvalConfig) (run_id : string)
    (results : list EvalResult) :
  forall uuid,
    Forall2 (fun r r' =>
               exists u, r' = set_alerts
                                (set_eval_run_id run_id
                                   <$> fst (RegressionDetector.check config r u)) r)
            results (fst (fst (batch_contract config run_id results uuid))).
Proof.
  induction results as [|r rest IH]; intros uuid; [constructor|].
  cbn [batch_contract].
  specialize (IH (snd (RegressionDetector.check config r uuid))).
  destruct (batch_contract config run_id rest _) as [[rest' all] uuid'].
  cbn [fst snd] in *. constructor; [|done]. by exists uuid.
Qed.

Lemma check_batch_pointwise (config : EvalConfig) (run_id : string)
    (results : list EvalResult) (uuid : nat) :
  Forall2 (fun r r' =>
             exists u, r' = set_alerts
                              (set_eval_run_id run_id
                                 <$> fst (RegressionDetector.check config r u)) r)
          results
          (RegressionDetector.bs_results
             (RegressionDetector.check_batch config results run_id uuid)).
Proof.
  rewrite check_batch_contract.
  pose proof (batch_contract_pointwise config run_id results uuid) as H.
  by destruct (batch_contract config run_id results uuid) as [[results' all] uuid'].
Qed.

Lemma check_batch_contract_facts (config : EvalConfig) (results : list EvalResult)
    (run_id : string) (uuid : nat) :
  let st := RegressionDetector.check_batch config results run_id uuid in
  Forall (fun a => eval_run_id a = run_id) (RegressionDetector.bs_all_alerts st) /\
  RegressionDetector.bs_all_alerts st
    = concat (alerts <$> RegressionDetector.bs_results st) /\
  length (RegressionDetector.bs_results st) = length results.
Proof.
  intros st. subst st. rewrite check_batch_contract.
  pose proof (batch_contract_stamped config run_id results uuid) as H1.
  pose proof (batch_contract_flat config run_id results uuid) as H2.
  pose proof (batch_contract_length config run_id results uuid) as H3.
  by destruct (batch_contract config run_id results uuid) as [[results' all] uuid'].
Qed.

Section run_eval_facts.

Variable get_episode : string -> Episode + string.
Variable str_exn : exn -> string.
Variable inherited_attr : string -> option PyValue.
Variable config : EvalConfig.

Lemma evaluate_shape (s : EpisodeSummary) :
  er_episode_id (Cli.evaluate get_episode str_exn inherited_attr config s)
    = default "" (sum_episode_id s) /\
  alerts (Cli.evaluate get_episode str_exn inherited_attr config s) = [] /\
  well_formed_result (Cli.evaluate get_episode str_exn inherited_attr config s).
Proof.
  unfold Cli.evaluate, well_formed_result.
  destruct (get_episode _) as [episode|message]; [|cbn; eauto 10].
  destruct (ScoringEngine.score _ _ _ _) as [card|e]; cbn; eauto 10.
Qed.

Lemma checked_shape (run : string) (r : EvalResult) (u : nat) :
  well_formed_result r ->
  well_formed_result
    (set_alerts (set_eval_run_id run <$> fst (RegressionDetector.check config r u)) r).
Proof.
  unfold well_formed_result. intros [H|(H1 & H2 & H3 & H4)]; [by left|right].
  cbn [er_status score_card error alerts set_alerts].
  repeat split; try done.
  unfold RegressionDetector.check. by rewrite H2.
Qed.

(** X10. [_run_eval] exits with code 1 when the listing fails.  Otherwise
    it finishes, with a completed run that has one result per listed
    episode, in order and under its id; each result is either completed
    with a card and no error, or failed with an error, no card and no
    alert; passed plus failed never exceeds the total; the alerts of the
    run are those of its results, all stamped with the id of the run. *)
Theorem run_eval_results (episodes : list EpisodeSummary)
    (new_run_id : string) (uuid : nat) :
  Cli._run_eval get_episode str_exn inherited_attr config None new_run_id uuid
  = Exited 1 /\
  exists run uuid',
    Cli._run_eval get_episode str_exn inherited_attr config (Some episodes)
      new_run_id uuid = Finished run uuid' /\
    run_id run = new_run_id /\
    run_status run = COMPLETED /\
    total_episodes run = length episodes /\
    (passed run + failed run <= total_episodes run)%nat /\
    er_episode_id <$> results run
      = (fun s => default "" (sum_episode_id s)) <$> episodes /\
    Forall well_formed_result (results run) /\
    run_alerts run = concat (alerts <$> results run) /\
    Forall (fun a => eval_run_id a = new_run_id) (run_alerts run).
Proof.
  split; [reflexivity|].
  unfold Cli._run_eval. cbn [results run_id].
  rewrite foldl_append_map. cbn [app].
  set (rs := (Cli.evaluate get_episode str_exn inherited_attr config) <$> episodes).
  pose proof (check_batch_pointwise config new_run_id rs uuid) as Hpt.
  destruct (check_batch_contract_facts config rs new_run_id uuid)
    as (Hstamp & Hflat & Hlen).
  set (st := RegressionDetector.check_batch config rs new_run_id uuid) in *.
  rewrite compute_summary_spec.
  eexists _, _. split; [reflexivity|].
  unfold summary_of, completed_of.
  cbn [run_id run_status total_episodes passed failed results run_alerts
       set_results set_run_status].
  repeat split.
  - rewrite Hlen. subst rs. by rewrite length_fmap.
  - rewrite threshold_partition. apply length_filter.
  - subst rs. clear -Hpt. revert Hpt.
    generalize (RegressionDetector.bs_results st).
    induction episodes as [|s eps IH]; intros l Hpt.
    + by apply Forall2_nil_inv_l in Hpt as ->.
    + apply Forall2_cons_inv_l in Hpt as (r' & l' & [u ->] & Hl & ->).
      cbn [fmap list_fmap]. cbn [er_episode_id set_alerts].
      f_equal; [apply evaluate_shape | by apply IH].
  - subst rs. clear -Hpt. revert Hpt.
    generalize (RegressionDetector.bs_results st).
    induction episodes as [|s eps IH]; intros l Hpt.
    + by apply Forall2_nil_inv_l in Hpt as ->.
    + apply Forall2_cons_inv_l in Hpt as (r' & l' & [u ->] & Hl & ->).
      constructor; [|by apply IH].
      apply checked_shape, evaluate_shape.
  - by rewrite <- Hflat.
Qed.










End run_eval_facts.

Lemma of_nat_S (n : nat) : Num.of_nat (S n) = Num.of_nat n + 1.
Proof.
  apply Qc_is_canon. unfold Num.of_nat. qc_unfold.
  rewrite Nat2Z.inj_succ, <- Z.add_1_r, inject_Z_plus. reflexivity.
Qed.

Lemma list_sum_bounds (l : list Qc) :
  Forall (fun x => 0 <= x /\ x <= 1) l ->
  0 <= list_sum l /\ list_sum l <= Num.of_nat (length l).
Proof.
  induction 1 as [|x l [Hx0 Hx1] _ [IH0 IH1]].
  - rewrite list_sum_nil. by split.
  - rewrite list_sum_cons. cbn [length]. rewrite of_nat_S.
    revert IH0 IH1. generalize (list_sum l) (Num.of_nat (length l)).
    intros s n IH0 IH1. qc_unfold. split; lra.
Qed.

Lemma mean_unit (l : list Qc) :
  l <> [] -> Forall (fun x => 0 <= x /\ x <= 1) l ->
  0 <= list_sum l / Num.of_nat (length l) /\ list_sum l / Num.of_nat (length l) <= 1.
Proof.
  intros Hl Hall. destruct (list_sum_bounds l Hall) as [H0 H1].
  assert (0 < Num.of_nat (length l)) as Hpos.
  { apply of_nat_pos. destruct l; [done|simpl; lia]. }
  revert H0 H1 Hpos. generalize (list_sum l) (Num.of_nat (length l)).
  intros s n H0 H1 Hpos. qc_unfold. split.
  - apply Qle_shift_div_l; [done|]. lra.
  - apply Qle_shift_div_r; [done|]. lra.
Qed.

(** X8. When the weighted scores of the results lie in [0, 1] (and so
    does the average the run holds), the average after [compute_summary]
    lies in [0, 1]. *)
Theorem summary_average_unit (self : EvalRun) :
  Forall (fun r => 0 <= weighted_of r /\ weighted_of r <= 1) (results self) ->
  0 <= avg_weighted_score self /\ avg_weighted_score self <= 1 ->
  exists self',
    compute_summary self = Ok self' /\
    0 <= avg_weighted_score self' /\ avg_weighted_score self' <= 1.
Proof.
  intros Hall Havg. exists (summary_of self).
  split; [apply compute_summary_spec|].
  unfold summary_of. cbn [avg_weighted_score].
  case_decide as Hnil; [done|].
  destruct (mean_unit (weighted_of <$> completed_of self)) as [H0 H1].
  - intros E. apply fmap_nil_inv in E. done.
  - apply Forall_fmap. unfold completed_of.
    clear -Hall. induction Hall as [|r l Hr _ IH]; [constructor|].
    rewrite filter_cons. case_decide; [constructor|]; done.
  - rewrite length_fmap in H0, H1.
    split; [by apply round_nonneg | by apply round_le_one].
Qed.

Section live_replay_facts.

Variable post : string -> string -> string -> GatewayAnswer.
Variable gateway_url : string.
Hypothesis no_crash : forall url model input, post url model input <> Crashed.

Lemma replay_step_indexed (step : GatewayStep) (i : nat) :
  gs_step_index step = Some i ->
  exists entry,
    ReplayRunner.replay_step post gateway_url step = inl entry /\
    entry_index entry = i /\
    (is_skipped entry = true <-> gs_step_type step <> Some "llm_call").
Proof.
  intros Hi. unfold ReplayRunner.replay_step, ReplayRunner.index_of. rewrite Hi.
  assert (opt_str_eqb (gs_step_type step) (Some "llm_call") = true
          <-> gs_step_type step = Some "llm_call") as Heq.
  { unfold opt_str_eqb. destruct (gs_step_type step) as [k|]; [|split; discriminate].
    destruct (String.eqb_spec k "llm_call"); split; congruence. }
  destruct (opt_str_eqb _ _) eqn:E; cbn [negb].
  - assert (gs_step_type step = Some "llm_call") as Ht by (by apply Heq).
    destruct (post _ _ _) eqn:Ep; [| |by apply no_crash in Ep];
      (eexists; split; [reflexivity|]; split; [done|]; cbn; split; [discriminate|done]).
  - eexists. split; [reflexivity|]. split; [done|]. cbn. split; [|done].
    intros _ Ht. apply Heq in Ht. congruence.
Qed.

Lemma replay_step_unindexed (step : GatewayStep) :
  gs_step_index step = None ->
  ReplayRunner.replay_step post gateway_url step = inr (KeyError "step_index").
Proof.
  intros Hi. unfold ReplayRunner.replay_step, ReplayRunner.index_of. rewrite Hi.
  destruct (negb _); [done|].
  destruct (post _ _ _) eqn:Ep; try done. by apply no_crash in Ep.
Qed.

Lemma replay_loop_indexed (steps : list GatewayStep) :
  Forall (fun s => is_Some (gs_step_index s)) steps ->
  forall replayed,
    exists entries,
      ReplayRunner.replay_loop post gateway_url steps replayed
      = inl (replayed ++ entries) /\
      Forall2 (fun s e =>
                 gs_step_index s = Some (entry_index e) /\
                 (is_skipped e = true <-> gs_step_type s <> Some "llm_call"))
              steps entries.
Proof.
  induction 1 as [|s steps [i Hi] _ IH]; intros replayed.
  - exists []. split; [by rewrite app_nil_r|constructor].
  - destruct (replay_step_indexed s i Hi) as (entry & He & Hidx & Hskip).
    cbn [ReplayRunner.replay_loop]. rewrite He.
    destruct (IH (replayed ++ [entry])) as (entries & Hl & Hall).
    exists (entry :: entries). split.
    + rewrite Hl. by rewrite <- app_assoc.
    + constructor; [|done]. by rewrite Hidx.
Qed.

Lemma replay_loop_unindexed (steps : list GatewayStep) :
  ~ Forall (fun s => is_Some (gs_step_index s)) steps ->
  forall replayed,
    ReplayRunner.replay_loop post gateway_url steps replayed
    = inr (KeyError "step_index").
Proof.
  induction steps as [|s steps IH]; intros Hnot replayed.
  - exfalso. apply Hnot. constructor.
  - cbn [ReplayRunner.replay_loop].
    destruct (gs_step_index s) as [i|] eqn:Hi.
    + destruct (replay_step_indexed s i Hi) as (entry & -> & _).
      apply IH. intros Hall. apply Hnot. constructor; [by rewrite Hi|done].
    + by rewrite replay_step_unindexed.
Qed.

(** X12. When the gateway fails with nothing but HTTP errors,
    [_live_replay] returns one entry per step, in order and under the
    index of the step, skipped exactly for the steps that are not model
    calls, provided every step has a [step_index]; as soon as one lacks it
    the replay raises [KeyError]. *)
Theorem live_replay_entries (steps : list GatewayStep) :
  (Forall (fun s => is_Some (gs_step_index s)) steps ->
   exists entries,
     ReplayRunner._live_replay post gateway_url (Some steps) = inl entries /\
     Forall2 (fun s e =>
                gs_step_index s = Some (entry_index e) /\
                (is_skipped e = true <-> gs_step_type s <> Some "llm_call"))
             steps entries) /\
  (~ Forall (fun s => is_Some (gs_step_index s)) steps ->
   ReplayRunner._live_replay post gateway_url (Some steps)
   = inr (KeyError "step_index")).
Proof.
  unfold ReplayRunner._live_replay. cbn [default]. split.
  - intros Hall. destruct (replay_loop_indexed steps Hall []) as (entries & H & HF).
    by exists entries.
  - intros Hnot. by apply replay_loop_unindexed.
Qed.

End live_replay_facts.

Lemma rstrip_decompose (s : string) :
  exists n, s = String.append (rstrip "/"%char s) (slashes n) /\
            (rstrip "/"%char s = EmptyString -> s = slashes n).
Proof.
  induction s as [|a rest (n & IH & IHe)].
  - by exists 0%nat.
  - cbn [rstrip]. destruct (rstrip "/"%char rest) as [|b kept] eqn:E.
    + destruct (Ascii.eqb_spec a "/"%char) as [->|Hne].
      * exists (S n). cbn. rewrite (IHe eq_refl). done.
      * exists n. cbn. rewrite (IHe eq_refl). done.
    + exists n. split; [|discriminate].
      change (String a rest = String a (String.append (String b kept) (slashes n))).
      by f_equal.
Qed.

Lemma rstrip_last (s : string) : last_char (rstrip "/"%char s) <> Some "/"%char.
Proof.
  induction s as [|a rest IH]; [done|].
  cbn [rstrip]. destruct (rstrip "/"%char rest) as [|b kept] eqn:E.
  - destruct (Ascii.eqb_spec a "/"%char); cbn; congruence.
  - cbn [last_char] in *. done.
Qed.

Lemma rstrip_fixed (s : string) :
  last_char s <> Some "/"%char -> rstrip "/"%char s = s.
Proof.
  induction s as [|a rest IH]; [done|].
  intros Hl. cbn [rstrip]. destruct rest as [|b rest'].
  - cbn in *. destruct (Ascii.eqb_spec a "/"%char); congruence.
  - rewrite IH by done. done.
Qed.

(** X13. The base URL kept by the client never ends with a slash; it is
    the given URL without its trailing slashes, and stripping again
    changes nothing. *)
Theorem base_url_stripped (url : string) :
  last_char (EpisodeClient.__init__ url) <> Some "/"%char /\
  (exists n, url = String.append (EpisodeClient.__init__ url) (slashes n)) /\
  EpisodeClient.__init__ (EpisodeClient.__init__ url) = EpisodeClient.__init__ url.
Proof.
  unfold EpisodeClient.__init__. split; [apply rstrip_last|]. split.
  - destruct (rstrip_decompose url) as (n & H & _). by exists n.
  - apply rstrip_fixed, rstrip_last.
Qed.

Lemma add_filter_lookup (key : string) (value : option string)
    (params : gmap string Param) (k : string) :
  EpisodeClient.add_filter key value params !! k
  = if decide (k = key) then
      match filter_value value with
      | Some p => Some p
      | None => params !! k
      end
    else params !! k.
Proof.
  unfold EpisodeClient.add_filter, filter_value.
  destruct value as [v|]; [destruct (String.eqb v "")|]; case_decide; subst;
    by rewrite ?lookup_insert_eq, ?lookup_insert_ne.
Qed.

(** X14. The query of [list_episodes] always carries [limit] and
    [offset]; each filter is sent exactly when it is a non-empty string
    (an empty filter is dropped like a missing one); nothing else is
    sent. *)
Theorem list_episodes_query (agent_id status model provider tool : option string)
    (limit offset : Z) :
  let params :=
    EpisodeClient.list_episodes_params agent_id status model provider tool
      limit offset in
  params !! "limit" = Some (PInt limit) /\
  params !! "offset" = Some (PInt offset) /\
  params !! "agent_id" = filter_value agent_id /\
  params !! "status" = filter_value status /\
  params !! "model" = filter_value model /\
  params !! "provider" = filter_value provider /\
  params !! "tool" = filter_value tool /\
  (forall k,
     k ∉ ["limit"; "offset"; "agent_id"; "status"; "model"; "provider"; "tool"] ->
             params !! k = None).
Proof.
  intros params. subst params. unfold EpisodeClient.list_episodes_params.
  repeat split; rewrite ?add_filter_lookup;
    repeat (case_decide; try done);
    try (by destruct (filter_value _));
    try (by rewrite ?lookup_insert_eq, ?lookup_insert_ne).
  intros k Hk. rewrite !add_filter_lookup.
  repeat (case_decide; [subst; exfalso; apply Hk; set_solver|]).
  rewrite !lookup_insert_ne, lookup_empty; [done| |];
    intros <-; apply Hk; set_solver.
Qed.

(** ** Ranges of the dimension scores *)

(** X2. Correctness, tool match and safety are always computed, and lie
    in [0, 1]. *)
Theorem dimension_scores_unit (current baseline : Episode) :
  (exists v, ScoringEngine._score_correctness current baseline = Ok v /\
             0 <= v /\ v <= 1) /\
  (exists v, ScoringEngine._score_tool_match current baseline = Ok v /\
             0 <= v /\ v <= 1) /\
  (exists v, ScoringEngine._score_safety current = Ok v /\ 0 <= v /\ v <= 1).
Proof.
  split; [apply correctness_range|].
  split; [apply tool_match_range | apply safety_range].
Qed.

(** ** Examples of the properties above *)

(** Comparisons of numerals are decided by evaluation. *)
Ltac qc_le := apply Qcle_alt; vm_compute; discriminate.

Lemma default_weights_nonneg :
  forall k w, default_score_weights !! k = Some w -> 0 <= w.
Proof.
  intros k w H. unfold default_score_weights in H.
  repeat (apply lookup_insert_Some in H as [[_ <-]|[_ H]]; [qc_le|]).
  by rewrite lookup_empty in H.
Qed.

Lemma default_total_weight : total_weight default_score_weights <= 1.
Proof. qc_le. Qed.


Lemma compute_weighted_idempotent_witness :
  compute_weighted no_inherited
    (set_weighted_score
       (Num.round (weighted_sum (card_with (Num.lit 50 1) (Num.lit 0 1))
                     default_score_weights) 4)
       (card_with (Num.lit 50 1) (Num.lit 0 1)))
    default_score_weights
  = Ok (set_weighted_score
          (Num.round (weighted_sum (card_with (Num.lit 50 1) (Num.lit 0 1))
                        default_score_weights) 4)
          (card_with (Num.lit 50 1) (Num.lit 0 1)),
        Num.round (weighted_sum (card_with (Num.lit 50 1) (Num.lit 0 1))
                     default_score_weights) 4).
Proof.
  apply (compute_weighted_idempotent no_inherited
           (card_with (Num.lit 50 1) (Num.lit 0 1)) _ default_score_weights).
  - apply default_weights_over_dimensions.
  - apply compute_weighted_sum, default_weights_over_dimensions.
Defined.

Lemma weighted_score_unit_witness :
  exists card',
    compute_weighted no_inherited (card_with (Num.lit 250 1) (Num.lit 0 1))
      default_score_weights = Ok (card', weighted_score card') /\
    0 <= weighted_score card' /\ weighted_score card' <= 1.
Proof.
  apply (weighted_score_unit no_inherited
           (card_with (Num.lit 250 1) (Num.lit 0 1)) default_score_weights).
  - apply default_weights_over_dimensions.
  - apply default_weights_nonneg.
  - apply default_total_weight.
  - split; qc_le.
  - split; qc_le.
  - split; qc_le.
Defined.


Lemma summary_average_unit_witness :
  exists self',
    compute_summary
      (mkEvalRun "run-1" default_config RUNNING
         [scored (card_with (Num.lit 0 1) (Num.lit 9 10)); unscored;
          scored (card_with (Num.lit 0 1) (Num.lit 3 10))] [] 0 0 0 (Num.lit 0 1))
    = Ok self' /\
    0 <= avg_weighted_score self' /\ avg_weighted_score self' <= 1.
Proof.
  apply summary_average_unit.
  - repeat constructor; qc_le.
  - split; qc_le.
Defined.

Lemma compute_summary_idempotent_witness :
  compute_summary (summary_of stale_run) = Ok (summary_of stale_run).
Proof.
  apply (compute_summary_idempotent stale_run).
  apply compute_summary_spec.
Defined.


Lemma live_replay_entries_witness :
  exists entries,
    ReplayRunner._live_replay gateway_down "http://localhost:8080"
      (Some [mkGatewayStep (Some 0%nat) (Some "llm_call") (Some "gpt-4") (Some "hi");
             mkGatewayStep (Some 1%nat) (Some "tool_call") None None])
    = inl entries /\
    Forall2 (fun s e =>
               gs_step_index s = Some (entry_index e) /\
               (is_skipped e = true <-> gs_step_type s <> Some "llm_call"))
      [mkGatewayStep (Some 0%nat) (Some "llm_call") (Some "gpt-4") (Some "hi");
       mkGatewayStep (Some 1%nat) (Some "tool_call") None None]
      entries.
Proof.
  apply (live_replay_entries gateway_down "http://localhost:8080").
  - intros url model input. discriminate.
  - repeat constructor; by eexists.
Defined.

(** * The engine over binary64 numbers *)

(** ** Binary64 arithmetic *)

(** ** Binary64 arithmetic *)

Lemma digits2_pos_size (p : positive) : digits2_pos p = Pos.size p.
Proof. induction p as [p IH|p IH|]; simpl; congruence. Qed.

Lemma Zdigits2_log2 (p : positive) :
  Zdigits2 (Zpos p) = Z.succ (Z.log2 (Zpos p)).
Proof.
  unfold Zdigits2. rewrite digits2_pos_size.
  destruct p as [p|p|]; simpl; try rewrite Pos2Z.inj_succ; reflexivity.
Qed.

Lemma Zdigits2_nonneg (m : Z) : (0 <= Zdigits2 m)%Z.
Proof. destruct m; simpl; lia. Qed.

(** [m] has at most [k] binary digits exactly when [m < 2^k]. *)
Lemma Zdigits2_le (m k : Z) :
  (0 <= m)%Z -> (0 <= k)%Z -> (m < 2 ^ k)%Z -> (Zdigits2 m <= k)%Z.
Proof.
  intros Hm Hk Hlt. destruct m as [|p|p]; [simpl; lia| |lia].
  rewrite Zdigits2_log2.
  assert (Z.log2 (Zpos p) < k)%Z; [|lia].
  apply Z.log2_lt_pow2; lia.
Qed.

Lemma Zdigits2_lt_pow2 (m : Z) : (0 <= m)%Z -> (m < 2 ^ Zdigits2 m)%Z.
Proof.
  intros Hm. destruct m as [|p|p]; [simpl; lia| |lia].
  rewrite Zdigits2_log2.
  apply Z.log2_spec. lia.
Qed.

Lemma shr_1_m (mrs : shr_record) :
  (0 <= shr_m mrs)%Z -> shr_m (shr_1 mrs) = (shr_m mrs / 2)%Z.
Proof.
  destruct mrs as [m r s]. simpl. intros Hm.
  destruct m as [|p|p]; [reflexivity| |lia].
  destruct p as [p|p|]; simpl.
  - change (Zpos p~1) with (1 + 2 * Zpos p)%Z.
    rewrite Z.add_comm, Z.mul_comm, Z.div_add_l by lia. reflexivity.
  - change (Zpos p~0) with (2 * Zpos p)%Z.
    rewrite Z.mul_comm, Z.div_mul by lia. reflexivity.
  - reflexivity.
Qed.

Lemma pow2_xI (p : positive) :
  (2 ^ Zpos p~1 = 2 * (2 ^ Zpos p * 2 ^ Zpos p))%Z.
Proof.
  replace (Zpos p~1) with (Zpos p + Zpos p + 1)%Z by lia.
  rewrite !Z.pow_add_r by lia. lia.
Qed.

Lemma pow2_xO (p : positive) : (2 ^ Zpos p~0 = 2 ^ Zpos p * 2 ^ Zpos p)%Z.
Proof.
  replace (Zpos p~0) with (Zpos p + Zpos p)%Z by lia.
  rewrite !Z.pow_add_r by lia. lia.
Qed.

(** Shifting a significand right by [p] bits divides it by [2^p]. *)
Lemma iter_shr_1_m (p : positive) :
  forall mrs : shr_record,
    (0 <= shr_m mrs)%Z ->
    shr_m (SpecFloat.iter_pos shr_1 p mrs) = (shr_m mrs / 2 ^ Zpos p)%Z.
Proof.
  induction p as [p IH|p IH|]; intros mrs Hm; simpl SpecFloat.iter_pos.
  - assert (0 <= shr_m (shr_1 mrs))%Z as H1.
    { rewrite shr_1_m by done. apply Z.div_pos; lia. }
    assert (0 <= shr_m (SpecFloat.iter_pos shr_1 p (shr_1 mrs)))%Z as H2.
    { rewrite IH by done. apply Z.div_pos; lia. }
    rewrite IH, IH, shr_1_m by done.
    rewrite !Z.div_div by lia. by rewrite pow2_xI.
  - assert (0 <= shr_m (SpecFloat.iter_pos shr_1 p mrs))%Z as H2.
    { rewrite IH by done. apply Z.div_pos; lia. }
    rewrite IH, IH by done.
    rewrite !Z.div_div by lia. by rewrite pow2_xO.
  - rewrite shr_1_m by done. reflexivity.
Qed.

(** The significand and the exponent [shr_fexp] returns. *)
Lemma shr_fexp_m (m e : Z) (l : location) :
  (0 <= m)%Z ->
  let n := (fexp Float64.prec Float64.emax (Zdigits2 m + e) - e)%Z in
  shr_fexp Float64.prec Float64.emax m e l =
    (fst (shr_fexp Float64.prec Float64.emax m e l),
     snd (shr_fexp Float64.prec Float64.emax m e l)) /\
  ((n <= 0)%Z ->
     shr_m (fst (shr_fexp Float64.prec Float64.emax m e l)) = m /\
     snd (shr_fexp Float64.prec Float64.emax m e l) = e) /\
  ((0 < n)%Z ->
     shr_m (fst (shr_fexp Float64.prec Float64.emax m e l)) = (m / 2 ^ n)%Z /\
     snd (shr_fexp Float64.prec Float64.emax m e l) = (e + n)%Z).
Proof.
  intros Hm n. split; [by destruct (shr_fexp _ _ _ _ _)|].
  unfold shr_fexp. fold n.
  assert (shr_m (shr_record_of_loc m l) = m) as Hrec.
  { by destruct l as [|[]]. }
  split; intros Hn.
  - destruct n as [|p|p]; try lia; simpl; by rewrite Hrec.
  - destruct n as [|p|p]; try lia. simpl.
    rewrite iter_shr_1_m by (rewrite Hrec; lia). by rewrite Hrec.
Qed.

Lemma Zdigits2_div_pow2 (m n : Z) :
  (0 <= m)%Z -> (0 < n)%Z ->
  (Zdigits2 (m / 2 ^ n) <= Z.max (Zdigits2 m - n) 0)%Z.
Proof.
  intros Hm Hn.
  pose proof (Zdigits2_lt_pow2 m Hm) as Hlt.
  pose proof (Zdigits2_nonneg m) as Hd.
  assert (0 < 2 ^ n)%Z as Hp by (apply Z.pow_pos_nonneg; lia).
  apply Zdigits2_le; [apply Z.div_pos; lia|lia|].
  destruct (Z_le_gt_dec n (Zdigits2 m)) as [Hle|Hgt].
  - rewrite Z.max_l by lia.
    apply Z.div_lt_upper_bound; [done|].
    rewrite <- Z.pow_add_r by lia.
    by replace (n + (Zdigits2 m - n))%Z with (Zdigits2 m) by lia.
  - rewrite Z.max_r by lia.
    rewrite Z.div_small; [done|].
    split; [done|].
    apply Z.lt_le_trans with (2 ^ Zdigits2 m)%Z; [done|].
    apply Z.pow_le_mono_r; lia.
Qed.

Lemma Zdigits2_succ (m m' : Z) :
  (0 <= m)%Z -> (0 <= m')%Z -> (m' <= m + 1)%Z ->
  (Zdigits2 m' <= Zdigits2 m + 1)%Z.
Proof.
  intros Hm Hm' Hle.
  pose proof (Zdigits2_lt_pow2 m Hm) as Hlt.
  pose proof (Zdigits2_nonneg m) as Hd.
  apply Zdigits2_le; [done|lia|].
  rewrite Z.pow_add_r, Z.pow_1_r by lia. lia.
Qed.

Lemma round_nearest_even_bounds (m : Z) (l : location) :
  (m <= round_nearest_even m l <= m + 1)%Z.
Proof.
  destruct l as [|[]]; simpl; try lia.
  destruct (Z.even m); lia.
Qed.

Lemma fexp_eq (k : Z) :
  fexp Float64.prec Float64.emax k = Z.max (k - 53) (-1074).
Proof. reflexivity. Qed.

(** Rounding a significand whose value is below [2^1023] does not
    overflow. *)
Lemma binary_round_aux_finite (sx : bool) (mx ex : Z) (lx : location) :
  (0 <= mx)%Z -> (ex <= 971)%Z -> (Zdigits2 mx + ex <= 1023)%Z ->
  Float64.is_finite
    (binary_round_aux Float64.prec Float64.emax sx mx ex lx) = true.
Proof.
  intros Hm He HD. unfold binary_round_aux.
  destruct (shr_fexp_m mx ex lx Hm) as (E1 & Hle1 & Hgt1). rewrite E1.
  set (r1 := fst (shr_fexp Float64.prec Float64.emax mx ex lx)) in *.
  set (e1 := snd (shr_fexp Float64.prec Float64.emax mx ex lx)) in *.
  set (m2 := round_nearest_even (shr_m r1) (loc_of_shr_record r1)).
  pose proof (round_nearest_even_bounds (shr_m r1) (loc_of_shr_record r1)) as Hr.
  fold m2 in Hr.
  pose proof (Zdigits2_nonneg mx) as Hdx.
  assert ((0 <= shr_m r1)%Z /\ (e1 <= 971)%Z /\
          (Zdigits2 (shr_m r1) + e1 <= 1023)%Z) as (Hm1 & He1 & HD1).
  { rewrite fexp_eq in Hle1, Hgt1.
    destruct (Z_le_gt_dec (Z.max (Zdigits2 mx + ex - 53) (-1074) - ex) 0)
      as [Hn|Hn].
    - destruct (Hle1 Hn) as [-> ->]. lia.
    - destruct (Hgt1 ltac:(lia)) as [-> ->].
      split; [apply Z.div_pos; [lia|apply Z.pow_pos_nonneg; lia]|].
      split; [lia|].
      pose proof (Zdigits2_div_pow2 mx
        (Z.max (Zdigits2 mx + ex - 53) (-1074) - ex) Hm ltac:(lia)) as H.
      revert H.
      generalize (Zdigits2 (mx / 2 ^ (Z.max (Zdigits2 mx + ex - 53) (-1074) - ex))).
      intros d' H. lia. }
  assert (0 <= m2)%Z as Hm2 by lia.
  pose proof (Zdigits2_succ (shr_m r1) m2 Hm1 Hm2 ltac:(lia)) as Hd2.
  destruct (shr_fexp_m m2 e1 loc_Exact Hm2) as (E2 & Hle2 & Hgt2). rewrite E2.
  set (r2 := fst (shr_fexp Float64.prec Float64.emax m2 e1 loc_Exact)) in *.
  set (e2 := snd (shr_fexp Float64.prec Float64.emax m2 e1 loc_Exact)) in *.
  assert ((0 <= shr_m r2)%Z /\ (e2 <= 971)%Z) as (Hm3 & He3).
  { rewrite fexp_eq in Hle2, Hgt2.
    destruct (Z_le_gt_dec (Z.max (Zdigits2 m2 + e1 - 53) (-1074) - e1) 0)
      as [Hn|Hn].
    - destruct (Hle2 Hn) as [-> ->]. lia.
    - destruct (Hgt2 ltac:(lia)) as [-> ->].
      split; [apply Z.div_pos; [lia|apply Z.pow_pos_nonneg; lia]|lia]. }
  destruct (shr_m r2) as [|p|p]; [done| |lia].
  change (Float64.emax - Float64.prec)%Z with 971%Z.
  change (IntDef.Z.leb e2 971) with (e2 <=? 971)%Z.
  destruct (Z.leb_spec e2 971) as [|Hgt]; [done|lia].
Qed.

(** The quotient and the exponent the division algorithm hands to the
    rounding, for two positive integers. *)
Lemma div_core_integers (a b : positive) :
  let e := Z.min (Z.max (Zdigits2 (Zpos a) - Zdigits2 (Zpos b) - 53) (-1074)) 0 in
  SFdiv_core_binary Float64.prec Float64.emax (Zpos a) 0 (Zpos b) 0 =
    ((Zpos a * 2 ^ (- e) / Zpos b)%Z, e,
     new_location (Zpos b) ((Zpos a * 2 ^ (- e)) mod Zpos b)%Z).
Proof.
  intros e. unfold SFdiv_core_binary.
  change (IntDef.Z.min
            (fexp Float64.prec Float64.emax
               (IntDef.Z.sub (IntDef.Z.add (Zdigits2 (Zpos a)) 0)
                             (IntDef.Z.add (Zdigits2 (Zpos b)) 0)))
            (IntDef.Z.sub 0 0))
    with (Z.min (fexp Float64.prec Float64.emax
                   (Zdigits2 (Zpos a) + 0 - (Zdigits2 (Zpos b) + 0))) 0).
  rewrite fexp_eq, !Z.add_0_r. fold e.
  change (IntDef.Z.sub (IntDef.Z.sub 0 0) e) with (- e)%Z.
  assert (e <= 0)%Z as He by (unfold e; lia).
  assert (match (- e)%Z with
          | Z0 => Zpos a
          | Zpos _ => IntDef.Z.shiftl (Zpos a) (- e)
          | Zneg _ => 0%Z
          end = (Zpos a * 2 ^ (- e))%Z) as ->.
  { destruct (- e)%Z as [|p|p] eqn:E; [lia| |lia].
    change (IntDef.Z.shiftl (Zpos a) (Zpos p)) with (Z.shiftl (Zpos a) (Zpos p)).
    rewrite Z.shiftl_mul_pow2 by lia. reflexivity. }
  change IntDef.Z.div_eucl with Z.div_eucl.
  unfold Z.div, Z.modulo.
  by destruct (Z.div_eucl (Zpos a * 2 ^ (- e)) (Zpos b)).
Qed.

(** The correctly rounded quotient of two integers overflows only when
    the dividend has more than 1023 bits and exceeds the divisor. *)
Lemma quotient_finite (a b : Z) :
  b <> 0%Z -> (Z.abs a < 2 ^ 1023)%Z \/ (Z.abs a <= Z.abs b)%Z ->
  Float64.is_finite (Float64.quotient a b) = true.
Proof.
  intros Hb Ha.
  assert (forall (s : bool) (p q : positive),
            (Zpos p < 2 ^ 1023)%Z \/ (Zpos p <= Zpos q)%Z ->
            Float64.is_finite
              (let '(mz, ez, lz) :=
                 SFdiv_core_binary Float64.prec Float64.emax (Zpos p) 0 (Zpos q) 0 in
               binary_round_aux Float64.prec Float64.emax s mz ez lz) = true) as H.
  { intros s p q Hp. rewrite div_core_integers.
    set (e := Z.min (Z.max (Zdigits2 (Zpos p) - Zdigits2 (Zpos q) - 53) (-1074)) 0).
    assert (e <= 0)%Z as He by (unfold e; lia).
    assert (0 < 2 ^ (- e))%Z as Hpow by (apply Z.pow_pos_nonneg; lia).
    assert (0 <= Zpos p * 2 ^ (- e) / Zpos q)%Z as Hq.
    { apply Z.div_pos; lia. }
    apply binary_round_aux_finite; [done|lia|].
    assert (Zdigits2 (Zpos p * 2 ^ (- e) / Zpos q) <= 1023 - e)%Z; [|lia].
    apply Zdigits2_le; [done|lia|].
    replace (1023 - e)%Z with (1023 + - e)%Z by lia.
    rewrite Z.pow_add_r by lia.
    destruct Hp as [Hp|Hp].
    - apply Z.le_lt_trans with (Zpos p * 2 ^ (- e))%Z; [|nia].
      apply Z.div_le_upper_bound; [lia|]. nia.
    - apply Z.le_lt_trans with (2 ^ (- e))%Z; [|lia].
      apply Z.div_le_upper_bound; [lia|]. nia. }
  unfold Float64.quotient, Float64.div, Float64.exact.
  destruct a as [|p|p], b as [|q|q]; try done; simpl SFdiv; apply H; lia.
Qed.



(** True division of lengths and counts: the dividend is not larger than
    the divisor, and the division returns a finite float. *)
Lemma int_truediv_le (a b : Z) :
  (0 <= a <= b)%Z -> (0 < b)%Z ->
  exists q, Float64.int_truediv a b = Ok q /\ Float64.is_finite q = true.
Proof.
  intros Ha Hb. unfold Float64.int_truediv.
  destruct (Z.eqb_spec b 0) as [|Hne]; [lia|].
  pose proof (quotient_finite a b Hne ltac:(right; lia)) as Hfin.
  destruct (Float64.quotient a b) as [s|s| |s m e]; try done; by eexists.
Qed.



(** * The values of the dimension scores *)

(** ** C7: cost and latency deltas *)



(** ** C6: correctness *)

Lemma step_ratio_returns (n m : nat) :
  (0 < n)%nat -> (0 < m)%nat ->
  exists ratio,
    Float64.int_truediv (Z.of_nat (Nat.min n m)) (Z.of_nat (Nat.max n m))
    = Ok ratio /\ Float64.is_finite ratio = true.
Proof. intros Hn Hm. apply int_truediv_le; lia. Qed.

Lemma round_base (current baseline : Engine64.Episode) :
  Float64.round (Terms64.correctness_base current baseline) 4
  = Terms64.correctness_base current baseline.
Proof.
  unfold Terms64.correctness_base.
  repeat case_decide; vm_compute; reflexivity.
Qed.

(** C6. The correctness score is the base (1.0, 0.8 or 0.0, which
    rounding to 4 decimals leaves as they are) when either episode has no
    step, and [round(base*0.7 + ratio*0.3, 4)] when both have at least one
    step, [ratio] being the float the division of the smaller step count
    by the larger returns (it never raises).  In particular 5 steps
    against 16 with equal statuses is 0.7937 (the blend is below
    0.79375). *)
Theorem correctness_formula (current baseline : Engine64.Episode) :
  let n_cur := Terms64.step_count current in
  let n_base := Terms64.step_count baseline in
  let base := Terms64.correctness_base current baseline in
  (n_cur = 0%nat \/ n_base = 0%nat ->
     Engine64.ScoringEngine._score_correctness current baseline
     = Ok (Float64.round base 4) /\
     Float64.round base 4 = base) /\
  ((0 < n_cur)%nat /\ (0 < n_base)%nat ->
     exists ratio,
       Float64.int_truediv (Z.of_nat (Nat.min n_cur n_base))
                           (Z.of_nat (Nat.max n_cur n_base)) = Ok ratio /\
       Engine64.ScoringEngine._score_correctness current baseline
       = Ok (Terms64.correctness_blend base ratio)) /\
  Engine64.ScoringEngine._score_correctness
    (Terms64.outcome "success" (repeat (step_of "llm_call") 5))
    (Terms64.outcome "success" (repeat (step_of "llm_call") 16))
  = Ok (Float64.lit 7937 10000).
Proof.
  intros n_cur n_base base.
  unfold Engine64.ScoringEngine._score_correctness.
  fold (Terms64.status_of current) (Terms64.status_of baseline).
  fold (Terms64.steps_of current) (Terms64.steps_of baseline).
  fold (Terms64.step_count current) (Terms64.step_count baseline).
  fold n_cur n_base.
  rewrite !String_eqb_decide.
  fold (Terms64.correctness_base current baseline). fold base.
  split; [|split].
  - intros H. split; [|apply round_base].
    destruct H as [-> | ->]; simpl; [done|].
    by rewrite andb_false_r.
  - intros [Hc Hb].
    destruct (step_ratio_returns n_cur n_base Hc Hb) as (ratio & Hr & _).
    exists ratio. split; [done|].
    apply Nat.ltb_lt in Hc as Hc', Hb as Hb'. rewrite Hc', Hb'. simpl.
    by rewrite Hr.
  - vm_compute. reflexivity.
Qed.

(** A failure against a successful baseline, three steps against two:
    0.0 * 0.7 + (2/3) * 0.3 = 0.2. *)
Lemma correctness_formula_witness :
  Engine64.ScoringEngine._score_correctness
    (Terms64.outcome "failure" [step_of "llm_call"; step_of "error"; step_of "error"])
    (Terms64.outcome "success" [step_of "llm_call"; step_of "tool_call"])
  = Ok (Float64.lit 2 10).
Proof.
  destruct (correctness_formula
    (Terms64.outcome "failure" [step_of "llm_call"; step_of "error"; step_of "error"])
    (Terms64.outcome "success" [step_of "llm_call"; step_of "tool_call"]))
    as (_ & H & _).
  destruct H as (ratio & Hr & ->).
  { unfold Terms64.step_count, Terms64.steps_of, Terms64.outcome. simpl. lia. }
  vm_compute in Hr. injection Hr as <-.
  vm_compute. reflexivity.
Defined.

(** ** C8: tool match *)

Lemma overlap_le_union (current baseline : list string) :
  (Terms64.overlap_size current baseline <= Terms64.union_size current baseline)%nat.
Proof.
  apply subseteq_size, elem_of_subseteq. intros x Hx.
  apply elem_of_union. left. by apply elem_of_intersection in Hx as [? _].
Qed.

(** C8. The tool match is 1.0 when both tool lists are empty, 0.0 when
    exactly one is, and otherwise [round(jaccard*0.6 + position_ratio*0.4, 4)],
    where [jaccard] is the float the division of the size of the
    intersection by the size of the union returns and [position_ratio]
    the float the division of the number of agreeing positions by the
    smaller length returns (neither division raises).  In particular
    ["a","b"] against ["b","a"] is 0.6, and sixteen tools against
    seventeen with one tool in common and no agreeing position is 0.0187
    (the blend is below 0.01875). *)
Theorem tool_match_formula (current baseline : Engine64.Episode) :
  let cur := Terms64.tools_of current in
  let base := Terms64.tools_of baseline in
  (cur = [] /\ base = [] ->
     Engine64.ScoringEngine._score_tool_match current baseline
     = Ok (Float64.lit 1 1)) /\
  ((cur = [] /\ base <> []) \/ (cur <> [] /\ base = []) ->
     Engine64.ScoringEngine._score_tool_match current baseline
     = Ok (Float64.lit 0 1)) /\
  (cur <> [] /\ base <> [] ->
     exists jaccard position_ratio,
       Float64.int_truediv (Z.of_nat (Terms64.overlap_size cur base))
                           (Z.of_nat (Terms64.union_size cur base)) = Ok jaccard /\
       Float64.int_truediv (Z.of_nat (position_matches cur base))
                           (Z.of_nat (Nat.min (length cur) (length base)))
       = Ok position_ratio /\
       Engine64.ScoringEngine._score_tool_match current baseline
       = Ok (Terms64.tool_blend jaccard position_ratio)) /\
  Engine64.ScoringEngine._score_tool_match
    (Terms64.with_tools ["a"; "b"]) (Terms64.with_tools ["b"; "a"])
  = Ok (Float64.lit 6 10) /\
  Engine64.ScoringEngine._score_tool_match
    (Terms64.with_tools Terms64.sixteen_tools)
    (Terms64.with_tools Terms64.seventeen_tools)
  = Ok (Float64.lit 187 10000).
Proof.
  intros cur base.
  unfold Engine64.ScoringEngine._score_tool_match.
  fold (Terms64.tools_of current) (Terms64.tools_of baseline). fold cur base.
  split; [|split; [|split; [|split]]].
  - intros [-> ->]. reflexivity.
  - intros [[-> Hb] | [Hc ->]].
    + by rewrite (bool_decide_nil _ Hb).
    + by rewrite (bool_decide_nil _ Hc).
  - intros [Hc Hb].
    rewrite (bool_decide_nil _ Hc), (bool_decide_nil _ Hb).
    cbn [andb orb].
    fold (Terms64.overlap_size cur base) (Terms64.union_size cur base).
    pose proof (union_size_pos cur base Hc) as Hu.
    fold (Terms64.union_size cur base) in Hu.
    pose proof (overlap_le_union cur base) as Ho.
    destruct (int_truediv_le (Z.of_nat (Terms64.overlap_size cur base))
                (Z.of_nat (Terms64.union_size cur base)) ltac:(lia) ltac:(lia))
      as (jaccard & Hj & _).
    assert (0 < Nat.min (length cur) (length base))%nat as Hmin.
    { destruct cur, base; try done. simpl. lia. }
    pose proof (position_matches_le cur base) as Hp.
    destruct (int_truediv_le (Z.of_nat (position_matches cur base))
                (Z.of_nat (Nat.min (length cur) (length base)))
                ltac:(lia) ltac:(lia))
      as (position_ratio & Hr & _).
    exists jaccard, position_ratio. split; [done|]. split; [done|].
    apply Nat.ltb_lt in Hu as Hu', Hmin as Hmin'. rewrite Hu', Hmin'.
    rewrite Hj. cbn [mbind result_bind].
    rewrite count_matches_ok. cbn [mbind result_bind].
    by rewrite Hr.
  - vm_compute. reflexivity.
  - vm_compute. reflexivity.
Qed.

(** ["a","b"] against ["b","a"]: the sets are equal and no position
    agrees. *)
Lemma tool_match_formula_witness :
  Engine64.ScoringEngine._score_tool_match
    (Terms64.with_tools ["a"; "b"]) (Terms64.with_tools ["b"; "a"])
  = Ok (Terms64.tool_blend (Float64.lit 1 1) (Float64.lit 0 1)).
Proof.
  destruct (tool_match_formula (Terms64.with_tools ["a"; "b"])
                               (Terms64.with_tools ["b"; "a"]))
    as (_ & _ & H & _).
  destruct H as (jaccard & position_ratio & Hj & Hr & ->).
  { split; intros E; discriminate E. }
  vm_compute in Hj, Hr. injection Hj as <-. injection Hr as <-.
  reflexivity.
Defined.

(** ** C5: safety *)










(** ** C4: the weighted score *)








(** ** C1: what [score] does without an [episode_id] *)

(** The loop of [compute_weighted] does not depend on the identifier of
    the card: the key "episode_id" raises [TypeError] whatever the
    identifier is. *)
Lemma weighted_step_identifier (inherited_attr : string -> option Engine64.PyValue)
    (card : Engine64.ScoreCard) (id : string) (total : Float64.float)
    (item : string * Float64.float) :
  Engine64.weighted_step inherited_attr (Engine64.set_episode_id id card) total item
  = Engine64.weighted_step inherited_attr card total item.
Proof.
  destruct item as [dim w].
  unfold Engine64.weighted_step, Engine64.getattr.
  destruct (String.eqb_spec dim "episode_id") as [->|_]; reflexivity.
Qed.

Lemma weighted_loop_identifier (inherited_attr : string -> option Engine64.PyValue)
    (card : Engine64.ScoreCard) (id : string)
    (weights : list (string * Float64.float)) :
  forall total,
    foldlM (Engine64.weighted_step inherited_attr (Engine64.set_episode_id id card))
           weights total
    = foldlM (Engine64.weighted_step inherited_attr card) weights total.
Proof.
  induction weights as [|item weights IH]; intros total; [done|].
  cbn [foldlM]. rewrite weighted_step_identifier.
  destruct (Engine64.weighted_step inherited_attr card total item); [|done].
  cbn [mbind result_bind]. apply IH.
Qed.

(** C1. An original episode without [episode_id] does not make [score]
    raise: the outcome is the one for the same episode carrying any
    identifier (the same exception, or the same card), except that the
    card's [episode_id] is the empty string. *)
Theorem score_defaults_identifier
    (inherited_attr : string -> option Engine64.PyValue)
    (score_weights : list (string * Float64.float))
    (original : Engine64.Episode) (baseline : option Engine64.Episode)
    (id : string) :
  Engine64.ep_episode_id original = None ->
  Engine64.ScoringEngine.score inherited_attr score_weights original baseline
  = Terms64.on_return (Engine64.set_episode_id "")
      (Engine64.ScoringEngine.score inherited_attr score_weights
         (Terms64.with_episode_id (Some id) original) baseline).
Proof.
  intros Hid. destruct original as [oid aid st steps tools cost dur others].
  cbn [Engine64.ep_episode_id] in Hid. subst oid.
  unfold Engine64.ScoringEngine.score, Terms64.on_return, Terms64.with_episode_id.
  cbn [Engine64.ep_episode_id Engine64.ep_agent_id Engine64.ep_status
       Engine64.ep_steps Engine64.ep_tools_used Engine64.ep_total_cost_usd
       Engine64.ep_total_duration_ms Engine64.ep_other_keys default].
  set (e := Engine64.mkEpisode None aid st steps tools cost dur others).
  set (e' := Engine64.mkEpisode (Some id) aid st steps tools cost dur others).
  assert (forall b, Engine64.ScoringEngine._score_correctness e' b
                    = Engine64.ScoringEngine._score_correctness e b) as E1 by done.
  assert (forall b, Engine64.ScoringEngine._score_cost_delta e' b
                    = Engine64.ScoringEngine._score_cost_delta e b) as E2 by done.
  assert (forall b, Engine64.ScoringEngine._score_latency_delta e' b
                    = Engine64.ScoringEngine._score_latency_delta e b) as E3 by done.
  assert (forall b, Engine64.ScoringEngine._score_tool_match e' b
                    = Engine64.ScoringEngine._score_tool_match e b) as E4 by done.
  assert (Engine64.ScoringEngine._score_safety e'
          = Engine64.ScoringEngine._score_safety e) as E5 by done.
  assert (Engine64.ScoringEngine._score_correctness e e'
          = Engine64.ScoringEngine._score_correctness e e) as F1 by done.
  assert (Engine64.ScoringEngine._score_cost_delta e e'
          = Engine64.ScoringEngine._score_cost_delta e e) as F2 by done.
  assert (Engine64.ScoringEngine._score_latency_delta e e'
          = Engine64.ScoringEngine._score_latency_delta e e) as F3 by done.
  assert (Engine64.ScoringEngine._score_tool_match e e'
          = Engine64.ScoringEngine._score_tool_match e e) as F4 by done.
  set (compare := match baseline with
                  | Some b => if Engine64.truthy baseline then b else e
                  | None => e
                  end).
  set (compare' := match baseline with
                   | Some b => if Engine64.truthy baseline then b else e'
                   | None => e'
                   end).
  assert (Engine64.ScoringEngine._score_correctness e' compare'
          = Engine64.ScoringEngine._score_correctness e compare) as G1.
  { unfold compare, compare'.
    destruct baseline as [b|]; [destruct (Engine64.truthy (Some b))|];
      rewrite E1; done. }
  assert (Engine64.ScoringEngine._score_cost_delta e' compare'
          = Engine64.ScoringEngine._score_cost_delta e compare) as G2.
  { unfold compare, compare'.
    destruct baseline as [b|]; [destruct (Engine64.truthy (Some b))|];
      rewrite E2; done. }
  assert (Engine64.ScoringEngine._score_latency_delta e' compare'
          = Engine64.ScoringEngine._score_latency_delta e compare) as G3.
  { unfold compare, compare'.
    destruct baseline as [b|]; [destruct (Engine64.truthy (Some b))|];
      rewrite E3; done. }
  assert (Engine64.ScoringEngine._score_tool_match e' compare'
          = Engine64.ScoringEngine._score_tool_match e compare) as G4.
  { unfold compare, compare'.
    destruct baseline as [b|]; [destruct (Engine64.truthy (Some b))|];
      rewrite E4; done. }
  assert ((if Engine64.truthy baseline then Engine64.ep_episode_id compare' else None)
          = (if Engine64.truthy baseline then Engine64.ep_episode_id compare else None))
    as G5.
  { unfold compare, compare'.
    destruct baseline as [b|]; [destruct (Engine64.truthy (Some b))|]; done. }
  rewrite G1, G2, G3, G4, G5, E5.
  destruct (Engine64.ScoringEngine._score_correctness e compare) as [v1|]; [|done].
  destruct (Engine64.ScoringEngine._score_cost_delta e compare) as [v2|]; [|done].
  destruct (Engine64.ScoringEngine._score_latency_delta e compare) as [v3|]; [|done].
  destruct (Engine64.ScoringEngine._score_tool_match e compare) as [v4|]; [|done].
  destruct (Engine64.ScoringEngine._score_safety e) as [v5|]; [|done].
  cbn [mbind result_bind].
  unfold Engine64.compute_weighted.
  set (bid := if Engine64.truthy baseline then Engine64.ep_episode_id compare else None).
  set (c := Engine64.set_safety v5 _).
  set (c' := Engine64.set_safety v5 _).
  assert (c = Engine64.set_episode_id "" c') as -> by done.
  rewrite weighted_loop_identifier.
  destruct (foldlM (Engine64.weighted_step inherited_attr c') score_weights
              Float64.zero) as [total|]; done.
Qed.

(** The fixture episode without its identifier: the card is the one of the
    fixture with the empty string for identifier. *)
Lemma score_defaults_identifier_witness :
  Engine64.ScoringEngine.score Terms64.no_inherited Terms64.default_score_weights
    Terms64.anonymous_episode None
  = Terms64.on_return (Engine64.set_episode_id "")
      (Engine64.ScoringEngine.score Terms64.no_inherited
         Terms64.default_score_weights Terms64.sample_episode None).
Proof.
  apply (score_defaults_identifier Terms64.no_inherited
           Terms64.default_score_weights Terms64.anonymous_episode None
           "ep-test-001").
  reflexivity.
Defined.

(** An episode without [episode_id] is scored, and the card carries the
    empty string; and two episodes that carry their identifiers, with
    durations [10^400] and 1, make [score] raise [OverflowError]. *)
Lemma score_defaults_missing_episode_id :
  (exists card,
     Engine64.ScoringEngine.score Terms64.no_inherited
       Terms64.default_score_weights Terms64.anonymous_episode None = Ok card /\
     Engine64.sc_episode_id card = "") /\
  Engine64.ScoringEngine.score Terms64.no_inherited Terms64.default_score_weights
    (Terms64.identified "ep-1" (Float64.Int (10 ^ 400)))
    (Some (Terms64.identified "ep-0" (Float64.Int 1)))
  = Raise OverflowError.
Proof.
  split; [|vm_compute; reflexivity].
  eexists. split; [vm_compute; reflexivity|reflexivity].
Qed.
